(** * Pole studio scraper: a shallow embedding of
      [2_Scraper/2_Functions/a_PoleStudio_URL_S_V6_Func.py]

    The Python module defines [PoleStudioScraper] (one extraction method per
    field of a studio page), [ScraperErrorManager] (two logging helpers) and
    a module-level loop over a list of URLs.  This development embeds

    - the pieces of Python's [str] the methods call ([startswith],
      [replace], [split], [strip]),
    - the part of the BeautifulSoup tree the methods query ([find_all],
      [find], [.text], attribute access),
    - the methods themselves, as computations that may raise and that run in
      a world made of the logging records and the standard output,
    - the [try]/[except] loop at the end of the module,

    and then states and proves the properties of the specification. *)

From Stdlib Require Import Ascii String List Arith Lia Permutation.
From stdpp Require Import gmap strings list fin_maps.

Set Warnings "-register-all".

Local Open Scope string_scope.
Local Open Scope list_scope.

(* ===================================================================== *)
(** * Python strings *)
(* ===================================================================== *)

(** A [str] is a sequence of code points; the embedding keeps the code
    points below 256, one per [ascii]. *)
Module PyStr.

(** [s.startswith(p)] *)
Definition startswith (s p : string) : bool := String.prefix p s.

(** [s.replace("", new)] puts [new] before every character and at the
    end. *)
Fixpoint replace_empty (new s : string) : string :=
  match s with
  | EmptyString => new
  | String c s' => new +:+ String c (replace_empty new s')
  end.

(** Left-to-right scan of [s.replace(old, new)] for a non-empty [old]:
    [skip] counts the characters of an occurrence of [old] that was just
    replaced and that remain to be dropped. *)
Fixpoint replace_scan (old new s : string) (skip : nat) : string :=
  match s with
  | EmptyString => EmptyString
  | String c s' =>
      match skip with
      | S k => replace_scan old new s' k
      | O =>
          if String.prefix old s
          then new +:+ replace_scan old new s' (String.length old - 1)
          else String c (replace_scan old new s' 0)
      end
  end.

(** [s.replace(old, new)]: every non-overlapping occurrence, leftmost
    first. *)
Definition replace (s old new : string) : string :=
  match old with
  | EmptyString => replace_empty new s
  | _ => replace_scan old new s 0
  end.

(** [s.split(sep)] for a separator of one character (the module only
    splits on [","], [" "] and ["("]).  The result is never empty. *)
Fixpoint split (s : string) (sep : ascii) : list string :=
  match s with
  | EmptyString => [EmptyString]
  | String c s' =>
      if Ascii.eqb c sep then EmptyString :: split s' sep
      else match split s' sep with
           | p :: ps => String c p :: ps
           | [] => [String c EmptyString]
           end
  end.

(** [c.isspace()] on the code points below 256: TAB, LF, VT, FF, CR,
    FS, GS, RS, US, SPACE, NEL and NBSP. *)
Definition isspace (c : ascii) : bool :=
  let n := nat_of_ascii c in
  (Nat.leb 9 n && Nat.leb n 13) || (Nat.leb 28 n && Nat.leb n 32)
  || Nat.eqb n 133 || Nat.eqb n 160.

Fixpoint lstrip (s : string) : string :=
  match s with
  | EmptyString => EmptyString
  | String c s' => if isspace c then lstrip s' else s
  end.

Fixpoint rstrip (s : string) : string :=
  match s with
  | EmptyString => EmptyString
  | String c s' =>
      match rstrip s' with
      | EmptyString => if isspace c then EmptyString else String c EmptyString
      | r => String c r
      end
  end.

(** [s.strip()] *)
Definition strip (s : string) : string := rstrip (lstrip s).

(** [sep.join(l)] *)
Fixpoint join (sep : string) (l : list string) : string :=
  match l with
  | [] => EmptyString
  | [x] => x
  | x :: l' => x +:+ sep +:+ join sep l'
  end.

End PyStr.

(* ===================================================================== *)
(** * The BeautifulSoup tree *)
(* ===================================================================== *)

Module bs4.

(** A parsed page.  A [Tag] has a name, the value of its multi-valued
    [class] attribute (the list of its class tokens, empty when the
    attribute is missing), its other attributes as a dictionary from
    attribute name to string, and its children.  A [NavigableString] is a
    piece of text. *)
Inductive PageElement : Type :=
| Tag (name : string) (class_ : list string)
      (attrs : gmap string string) (contents : list PageElement)
| NavigableString (s : string).

(** [e.descendants]: everything below [e], in document order. *)
Fixpoint descendants (e : PageElement) : list PageElement :=
  match e with
  | NavigableString _ => []
  | Tag _ _ _ cs =>
      (fix walk (l : list PageElement) : list PageElement :=
         match l with
         | [] => []
         | c :: l' => c :: descendants c ++ walk l'
         end) cs
  end.

(** [e.text]: the strings below [e], concatenated in document order. *)
Fixpoint text (e : PageElement) : string :=
  match e with
  | NavigableString s => s
  | Tag _ _ _ cs =>
      (fix walk (l : list PageElement) : string :=
         match l with
         | [] => EmptyString
         | c :: l' => text c +:+ walk l'
         end) cs
  end.

(** Keyword arguments of [find_all]: [class_="..."] and [attr=True]. *)
Inductive AttrFilter : Type :=
| class_is (signature : string)
| attr_True (key : string).

(** A [class_] string matches a tag when it equals one of the tag's class
    tokens or the tokens joined by single spaces. *)
Definition class_matches (signature : string) (classes : list string) : bool :=
  existsb (String.eqb signature) classes
  || String.eqb (PyStr.join " " classes) signature.

Definition filter_matches (class_ : list string) (attrs : gmap string string)
           (f : AttrFilter) : bool :=
  match f with
  | class_is signature => class_matches signature class_
  | attr_True key => bool_decide (is_Some (attrs !! key))
  end.

Definition matches (name : string) (filters : list AttrFilter)
           (e : PageElement) : bool :=
  match e with
  | Tag n class_ attrs _ =>
      String.eqb n name && forallb (filter_matches class_ attrs) filters
  | NavigableString _ => false
  end.

(** [e.find_all(name, **filters)] *)
Definition find_all (e : PageElement) (name : string)
           (filters : list AttrFilter) : list PageElement :=
  List.filter (matches name filters) (descendants e).

(** [e.find(name, **filters)]: the first match, or [None]. *)
Definition find (e : PageElement) (name : string)
           (filters : list AttrFilter) : option PageElement :=
  head (find_all e name filters).

(** [e.get(key)] and [e.has_attr(key)] on a single-valued attribute. *)
Definition get (e : PageElement) (key : string) : option string :=
  match e with
  | Tag _ _ attrs _ => attrs !! key
  | NavigableString _ => None
  end.

Definition has_attr (e : PageElement) (key : string) : bool :=
  bool_decide (is_Some (get e key)).

End bs4.

(* ===================================================================== *)
(** * The Python runtime the module relies on *)
(* ===================================================================== *)

Module Py.

(** The exception classes that occur.  [RequestException] stands for
    [requests.exceptions.RequestException] and its subclasses;
    [KeyboardInterrupt] for the classes that derive from [BaseException]
    but not from [Exception]. *)
Inductive ExcClass : Type :=
| RequestException | IndexError | KeyError | AttributeError
| Exception | KeyboardInterrupt.

(** [issubclass(c, d)] *)
Definition issubclass (c d : ExcClass) : bool :=
  match d, c with
  | Exception, KeyboardInterrupt => false
  | Exception, _ => true
  | RequestException, RequestException => true
  | IndexError, IndexError => true
  | KeyError, KeyError => true
  | AttributeError, AttributeError => true
  | KeyboardInterrupt, KeyboardInterrupt => true
  | _, _ => false
  end.

(** A raised exception: its class and [str(e)]. *)
Record Exc : Type := mkExc { exc_class : ExcClass; str : string }.

Definition isinstance (e : Exc) (c : ExcClass) : bool :=
  issubclass (exc_class e) c.
Arguments isinstance : simpl never.

Inductive Result (A : Type) : Type :=
| Returned (a : A)
| Raised (e : Exc).
Arguments Returned {A} a.
Arguments Raised {A} e.

(** [logging] levels. *)
Definition DEBUG : nat := 10.
Definition WARNING : nat := 30.
Definition ERROR : nat := 40.

Record LogRecord : Type :=
  mkLogRecord { name : string; levelno : nat; msg : string }.

(** What a run of the module can change: the lines printed and the
    records the loggers have emitted, oldest first. *)
Record World : Type := mkWorld { stdout : list string; records : list LogRecord }.

(** A computation: it runs in a world, returns or raises, and leaves a
    world. *)
Definition M (A : Type) : Type := World -> Result A * World.

Definition ret {A} (a : A) : M A := fun w => (Returned a, w).

Definition raise {A} (e : Exc) : M A := fun w => (Raised e, w).

Definition bind {A B} (m : M A) (k : A -> M B) : M B :=
  fun w =>
    match m w with
    | (Returned a, w') => k a w'
    | (Raised e, w') => (Raised e, w')
    end.

(** An [except C as e: handler] clause. *)
Record ExceptClause (A : Type) : Type :=
  except_ { caught : ExcClass; handler : Exc -> M A }.
Arguments except_ {A} caught handler.
Arguments caught {A} _.
Arguments handler {A} _.

(** The first clause whose class the exception is an instance of. *)
Fixpoint select_clause {A} (e : Exc) (clauses : list (ExceptClause A))
  : option (ExceptClause A) :=
  match clauses with
  | [] => None
  | c :: cs => if isinstance e (caught c) then Some c else select_clause e cs
  end.

(** [try: body  except ...: ...]: an exception of the body runs the first
    matching clause, in the world the body left; one that no clause
    matches propagates. *)
Definition try_ {A} (body : M A) (clauses : list (ExceptClause A)) : M A :=
  fun w =>
    match body w with
    | (Returned a, w') => (Returned a, w')
    | (Raised e, w') =>
        match select_clause e clauses with
        | Some c => handler c e w'
        | None => (Raised e, w')
        end
    end.

(** [for x in l: body]: the body's state [s] is threaded through; an
    exception ends the loop. *)
Fixpoint for_ {A S} (l : list A) (body : A -> S -> M S) (s : S) : M S :=
  match l with
  | [] => ret s
  | x :: l' => bind (body x s) (for_ l' body)
  end.

(** [[elt for x in l if cond]], where evaluating an element may raise:
    [body x] returns the elements [x] contributes. *)
Fixpoint comprehension {A B} (l : list A) (body : A -> M (list B)) : M (list B) :=
  match l with
  | [] => ret []
  | x :: l' =>
      bind (body x) (fun ys => bind (comprehension l' body) (fun zs => ret (ys ++ zs)))
  end.

(** [l[i]] on a list. *)
Definition getitem {A} (l : list A) (i : nat) : M A :=
  match nth_error l i with
  | Some a => ret a
  | None => raise (mkExc IndexError "list index out of range")
  end.

(** [print(s)] *)
Definition print (s : string) : M unit :=
  fun w => (Returned tt, mkWorld (stdout w ++ [s]) (records w)).

(** A [logging.Logger] without handlers of its own: a call at a level the
    logger is enabled for emits one record. *)
Record Logger : Type := mkLogger { logger_name : string; level : nat }.

Definition log (lg : Logger) (lvl : nat) (message : string) : M unit :=
  fun w =>
    if Nat.leb (level lg) lvl
    then (Returned tt,
          mkWorld (stdout w) (records w ++ [mkLogRecord (logger_name lg) lvl message]))
    else (Returned tt, w).

Definition error (lg : Logger) (message : string) : M unit := log lg ERROR message.
Definition warning (lg : Logger) (message : string) : M unit := log lg WARNING message.

(** [logging.getLogger(name)] followed by [setLevel(lvl)]: the empty name
    stands for the root logger, whose records carry the name ["root"]. *)
Definition getLogger (nm : string) (lvl : nat) : Logger :=
  mkLogger (if String.eqb nm EmptyString then "root" else nm) lvl.

End Py.

Notation "x <- m ;; k" := (Py.bind m (fun x => k))
  (at level 100, m at next level, right associativity).
Notation "m ;;; k" := (Py.bind m (fun _ => k))
  (at level 100, right associativity).

(** [e[key]] and [e.text] on what [find] returned, which may be [None]. *)
Definition Tag_getitem (e : bs4.PageElement) (key : string) : Py.M string :=
  match bs4.get e key with
  | Some v => Py.ret v
  | None => Py.raise (Py.mkExc Py.KeyError ("'" +:+ key +:+ "'"))
  end.

Definition dot_text (o : option bs4.PageElement) : Py.M string :=
  match o with
  | Some e => Py.ret (bs4.text e)
  | None =>
      Py.raise (Py.mkExc Py.AttributeError
                  "'NoneType' object has no attribute 'text'")
  end.

(** Truth value of what [find] returned: a [Tag] is always true, [None] is
    false. *)
Definition truthy (o : option bs4.PageElement) : bool :=
  match o with Some _ => true | None => false end.

Import PyStr bs4.

(* ===================================================================== *)
(** * class PoleStudioScraper *)
(* ===================================================================== *)

(** What [requests.get] returns, as far as the module reads it. *)
Record Response : Type := mkResponse { content : string }.

Record PoleStudioScraper : Type :=
  mkPoleStudioScraper { url : string; response : Response; soup : PageElement }.

(** [extract_overview_buttons] *)
Definition extract_overview_buttons (self : PoleStudioScraper) : Py.M (list string) :=
  let buttons_divs := find_all (soup self) "div" [class_is "MuiStack-root css-sgccrm"] in
  let button_texts :=
    flat_map (fun div => map text (find_all div "a" [])) buttons_divs in
  Py.ret button_texts.

(** [extract_pole_studio_name] *)
Definition extract_pole_studio_name (self : PoleStudioScraper) : Py.M (option string) :=
  let name_element :=
    find (soup self) "h1" [class_is "MuiTypography-root MuiTypography-h1 css-qinhw0"] in
  if truthy name_element
  then (t <- dot_text name_element ;; Py.ret (Some t))
  else Py.ret None.

(** The dictionary [extract_contact_info] starts from. *)
Definition contact_info_init : gmap string (option string) :=
  <["E-Mail" := None]> (<["Homepage" := None]> (<["Telefon" := None]> ∅)).

(** The body of the inner loop of [extract_contact_info], for one anchor. *)
Definition contact_anchor (a : PageElement) (contact_info : gmap string (option string))
  : Py.M (gmap string (option string)) :=
  href <- Tag_getitem a "href" ;;
  if startswith href "mailto:"
  then Py.ret (<["E-Mail" := Some (replace href "mailto:" "")]> contact_info)
  else if startswith href "tel:"
  then Py.ret (<["Telefon" := Some (replace href "tel:" "")]> contact_info)
  else Py.ret (<["Homepage" := Some href]> contact_info).

(** [extract_contact_info] *)
Definition extract_contact_info (self : PoleStudioScraper)
  : Py.M (gmap string (option string)) :=
  let contact_divs := find_all (soup self) "div" [class_is "css-1x2phcg"] in
  let contact_info := contact_info_init in
  Py.for_ contact_divs
    (fun div contact_info =>
       Py.for_ (find_all div "a" [attr_True "href"]) contact_anchor contact_info)
    contact_info.

(** [extract_address]: the four components of the tuple it returns. *)
Definition extract_address (self : PoleStudioScraper)
  : Py.M (option (list string) * option string * option string * option string) :=
  let address_element :=
    find (soup self) "p" [class_is "MuiTypography-root MuiTypography-body1 css-1619old"] in
  match address_element with
  | Some e =>
      let address_text := split (text e) "," in
      s1 <- Py.getitem address_text 1 ;;
      t2 <- Py.getitem (split s1 " ") 2 ;;
      s1' <- Py.getitem address_text 1 ;;
      t1 <- Py.getitem (split s1' " ") 1 ;;
      s0 <- Py.getitem address_text 0 ;;
      Py.ret (Some address_text, Some t2, Some t1, Some s0)
  | None => Py.ret (None, None, None, None)
  end.

(** [extract_description] *)
Definition extract_description (self : PoleStudioScraper) : Py.M (option string) :=
  let description_element := find (soup self) "div" [class_is "MuiBox-root css-0"] in
  if truthy description_element
  then (t <- dot_text description_element ;; Py.ret (Some t))
  else Py.ret None.

(** [extract_rating] *)
Definition extract_rating (self : PoleStudioScraper)
  : Py.M (option string * option string) :=
  let rating_element :=
    find (soup self) "p" [class_is "MuiTypography-root MuiTypography-body1 css-2g7rhg"] in
  match rating_element with
  | Some e =>
      let parts := split (text e) "(" in
      p0 <- Py.getitem parts 0 ;;
      p1 <- Py.getitem parts 1 ;;
      Py.ret (Some (strip p0), Some (strip (replace p1 ")" "")))
  | None => Py.ret (None, None)
  end.

(** The two paragraphs a rating factor is read from. *)
Definition factor_label (item : PageElement) : option PageElement :=
  find item "p" [class_is "MuiTypography-root MuiTypography-body1 css-1k55edk"].
Definition factor_value (item : PageElement) : option PageElement :=
  find item "p" [class_is "MuiTypography-root MuiTypography-body1 css-1y0caop"].

(** [extract_rating_factors] *)
Definition extract_rating_factors (self : PoleStudioScraper) : Py.M (list string) :=
  let items := find_all (soup self) "div" [class_is "MuiStack-root css-95g4uk"] in
  Py.comprehension items
    (fun item =>
       if truthy (factor_label item) && truthy (factor_value item)
       then (l <- dot_text (factor_label item) ;;
             v <- dot_text (factor_value item) ;;
             Py.ret [l +:+ ": " +:+ v])
       else Py.ret []).

(** [extract_art] *)
Definition extract_art (self : PoleStudioScraper) : Py.M (list string) :=
  let art_elements :=
    find_all (soup self) "p" [class_is "MuiTypography-root MuiTypography-body1 css-6ik050"] in
  Py.ret (map text art_elements).

(** [extract_sale] *)
Definition extract_sale (self : PoleStudioScraper) : Py.M (option string) :=
  let sale_element :=
    find (soup self) "p" [class_is "MuiTypography-root MuiTypography-body1 css-153qxhx"] in
  if truthy sale_element
  then (t <- dot_text sale_element ;; Py.ret (Some t))
  else Py.ret None.

(** [extract_image_urls] *)
Definition extract_image_urls (self : PoleStudioScraper) : Py.M (list string) :=
  let pictures := find_all (soup self) "div" [class_is "MuiBox-root css-1fivxf"] in
  Py.comprehension pictures
    (fun div =>
       match find div "img" [] with
       | Some img =>
           if has_attr img "src"
           then (src <- Tag_getitem img "src" ;; Py.ret [src])
           else Py.ret []
       | None => Py.ret []
       end).

(* ===================================================================== *)
(** * class ScraperErrorManager *)
(* ===================================================================== *)

Record ScraperErrorManager : Type := mkScraperErrorManager { logger : Py.Logger }.

(** [ScraperErrorManager.__init__]: the logger's level is set to [DEBUG]. *)
Definition ScraperErrorManager_init (logger_name : string) : ScraperErrorManager :=
  mkScraperErrorManager (Py.getLogger logger_name Py.DEBUG).

Definition log_error (self : ScraperErrorManager) (message : string) : Py.M unit :=
  Py.error (logger self) message.

Definition log_warning (self : ScraperErrorManager) (message : string) : Py.M unit :=
  Py.warning (logger self) message.

Definition handle_url_error (self : ScraperErrorManager) (url : string)
           (exception : Py.Exc) : Py.M unit :=
  let error_message := "Error accessing URL '" +:+ url +:+ "': " +:+ Py.str exception in
  log_error self error_message.

Definition handle_element_error (self : ScraperErrorManager) (element_name : string)
           (exception : Py.Exc) : Py.M unit :=
  let error_message :=
    "Error accessing element '" +:+ element_name +:+ "': " +:+ Py.str exception in
  log_warning self error_message.

(* ===================================================================== *)
(** * The module-level loop *)
(* ===================================================================== *)

Definition url_list_s : list string :=
  ["https://www.eversports.de/s/poda-studio"; "https://www.eversports.de/s/nordpole"].

Definition error_manager : ScraperErrorManager :=
  ScraperErrorManager_init "scraper_error_logger".

(** The [except] clauses of the loop, for the URL of the turn. *)
Definition except_clauses (url : string) : list (Py.ExceptClause unit) :=
  [ Py.except_ Py.RequestException
      (fun url_error => handle_url_error error_manager url url_error);
    Py.except_ Py.Exception
      (fun element_error =>
         handle_element_error error_manager "overview buttons" element_error) ].

Section Batch.

(** The collaborators the module imports: the HTTP client, the HTML
    parser, and [repr] on a list of strings (used by the f-string that is
    printed).  The client and the parser return or raise. *)
Variable requests_get : string -> Py.Result Response.
Variable BeautifulSoup : string -> string -> Py.Result PageElement.
Variable repr : list string -> string.

Definition call {A} (r : Py.Result A) : Py.M A := fun w => (r, w).

(** [PoleStudioScraper.__init__] *)
Definition PoleStudioScraper_init (url : string) : Py.M PoleStudioScraper :=
  response <- call (requests_get url) ;;
  soup <- call (BeautifulSoup (content response) "html.parser") ;;
  Py.ret (mkPoleStudioScraper url response soup).

(** One turn of [for url in url_list_s: try: ... except ...]. *)
Definition loop_body (url : string) : Py.M unit :=
  Py.try_
    (pole_scraper <- PoleStudioScraper_init url ;;
     buttons_list <- extract_overview_buttons pole_scraper ;;
     Py.print ("Buttons for " +:+ url +:+ ": " +:+ repr buttons_list))
    (except_clauses url).

(** The loop over a list of URLs. *)
Definition batch (urls : list string) : Py.M unit :=
  Py.for_ urls (fun url _ => loop_body url) tt.

(** The module's own run. *)
Definition main : Py.M unit := batch url_list_s.

End Batch.

(* ===================================================================== *)
(** * Vocabulary of the properties *)
(* ===================================================================== *)

(** [c in s] for a character [c]. *)
Fixpoint contains (s : string) (c : ascii) : bool :=
  match s with
  | EmptyString => false
  | String c' s' => Ascii.eqb c' c || contains s' c
  end.

(** The empty world a run starts in. *)
Definition quiet : Py.World := Py.mkWorld [] [].

(** The anchors [extract_contact_info] visits, in the order it visits them:
    container after container, and inside a container in document order. *)
Definition contact_divs (self : PoleStudioScraper) : list PageElement :=
  find_all (soup self) "div" [class_is "css-1x2phcg"].

Definition visited_anchors (self : PoleStudioScraper) : list PageElement :=
  flat_map (fun div => find_all div "a" [attr_True "href"]) (contact_divs self).

Definition hrefs (anchors : list PageElement) : list string :=
  omap (fun a => get a "href") anchors.

(** The three branches of the classification of an href. *)
Definition is_mail (href : string) : bool := startswith href "mailto:".
Definition is_tel (href : string) : bool :=
  negb (startswith href "mailto:") && startswith href "tel:".
Definition is_other (href : string) : bool :=
  negb (startswith href "mailto:") && negb (startswith href "tel:").

(** What one anchor does to the dictionary, as a function of its href. *)
Definition contact_update (contact_info : gmap string (option string))
           (href : string) : gmap string (option string) :=
  if startswith href "mailto:"
  then <["E-Mail" := Some (replace href "mailto:" "")]> contact_info
  else if startswith href "tel:"
  then <["Telefon" := Some (replace href "tel:" "")]> contact_info
  else <["Homepage" := Some href]> contact_info.

(** The value a category ends with under last-write-wins: [render] of the
    last href of the category, or [None] when there is none. *)
Definition last_write (category : string -> bool) (render : string -> string)
           (hs : list string) : option string :=
  render <$> last (List.filter category hs).

(** A matched rating-factor [div] is well formed when both paragraphs are
    found; its entry is ["label: value"]. *)
Definition factor_well_formed (item : PageElement) : bool :=
  truthy (factor_label item) && truthy (factor_value item).

Definition factor_entry (item : PageElement) : string :=
  from_option text "" (factor_label item) +:+ ": "
  +:+ from_option text "" (factor_value item).

(** A matched picture [div] is well formed when its first [img] exists and
    has a [src]; its entry is that [src]. *)
Definition picture_well_formed (div : PageElement) : bool :=
  match find div "img" [] with
  | Some img => has_attr img "src"
  | None => false
  end.

Definition picture_entry (div : PageElement) : string :=
  from_option (fun img => default "" (get img "src")) "" (find div "img" []).

Definition malformed (well_formed : PageElement -> bool) (e : PageElement) : bool :=
  negb (well_formed e).

(** The selectors of the sequence fields. *)
Definition factor_items (self : PoleStudioScraper) : list PageElement :=
  find_all (soup self) "div" [class_is "MuiStack-root css-95g4uk"].
Definition pictures (self : PoleStudioScraper) : list PageElement :=
  find_all (soup self) "div" [class_is "MuiBox-root css-1fivxf"].

(** The exception an out-of-range list index raises. *)
Definition index_error : Py.Exc := Py.mkExc Py.IndexError "list index out of range".

(** A call that cannot be interrupted from outside: if it raises, it raises
    an instance of [Exception]. *)
Definition ordinary {A} (r : Py.Result A) : Prop :=
  match r with
  | Py.Returned _ => True
  | Py.Raised e => Py.isinstance e Py.Exception = true
  end.

(** The record [handle_url_error] emits for a URL and an exception. *)
Definition url_error_record (url : string) (e : Py.Exc) : Py.LogRecord :=
  Py.mkLogRecord "scraper_error_logger" Py.ERROR
    ("Error accessing URL '" +:+ url +:+ "': " +:+ Py.str e).


Definition with_record (w : Py.World) (r : Py.LogRecord) : Py.World :=
  Py.mkWorld (Py.stdout w) (Py.records w ++ [r]).

(* ===================================================================== *)
(** * Sample pages *)
(* ===================================================================== *)

Module Samples.

Definition page (body : list PageElement) : PoleStudioScraper :=
  mkPoleStudioScraper "https://www.eversports.de/s/poda-studio" (mkResponse "")
    (Tag "[document]" [] ∅ [Tag "html" [] ∅ [Tag "body" [] ∅ body]]).

Definition a_href (href label : string) : PageElement :=
  Tag "a" [] {[ "href" := href ]} [NavigableString label].

Definition p_ (classes : list string) (s : string) : PageElement :=
  Tag "p" ("MuiTypography-root" :: "MuiTypography-body1" :: classes) ∅
    [NavigableString s].

(** A contact container with the three kinds of anchor, homepage first,
    and an anchor without [href]. *)
Definition contact_page : PoleStudioScraper :=
  page [Tag "div" ["css-1x2phcg"] ∅
          [a_href "https://example.com" "Web";
           Tag "span" [] ∅ [a_href "tel:123" "Call"];
           Tag "a" [] ∅ [NavigableString "no link"];
           a_href "mailto:a@x.com" "Mail"]].

(** A contact container with two mail anchors. *)
Definition two_mails_page : PoleStudioScraper :=
  page [Tag "div" ["css-1x2phcg"] ∅
          [a_href "mailto:a@x.com" "A"; a_href "mailto:b@x.com" "B"]].

(** A contact container nested in another one. *)
Definition nested_contact_page : PoleStudioScraper :=
  page [Tag "div" ["css-1x2phcg"] ∅
          [Tag "div" ["css-1x2phcg"] ∅ [a_href "mailto:a@x.com" "A"];
           a_href "mailto:b@x.com" "B"]].

Definition rating_page (s : string) : PoleStudioScraper :=
  page [p_ ["css-2g7rhg"] s].

Definition address_page (s : string) : PoleStudioScraper :=
  page [p_ ["css-1619old"] s; Tag "h1" ["MuiTypography-root"; "MuiTypography-h1"; "css-qinhw0"] ∅
                                [NavigableString "Poda Studio"]].

Definition factor (parts : list PageElement) : PageElement :=
  Tag "div" ["MuiStack-root"; "css-95g4uk"] ∅ parts.

Definition picture (parts : list PageElement) : PageElement :=
  Tag "div" ["MuiBox-root"; "css-1fivxf"] ∅ parts.

(** Three rating factors, the second without its value paragraph, and
    three pictures, the first without [img] and the third without
    [src]. *)
Definition sequences_page : PoleStudioScraper :=
  page [factor [p_ ["css-1k55edk"] "Ambiente"; p_ ["css-1y0caop"] "4.9"];
        factor [p_ ["css-1k55edk"] "Sauberkeit"];
        factor [p_ ["css-1k55edk"] "Trainer"; p_ ["css-1y0caop"] "5.0"];
        picture [NavigableString "loading"];
        picture [Tag "img" [] {[ "src" := "https://img.example/1.jpg" ]} []];
        picture [Tag "img" [] {[ "alt" := "studio" ]} []]].

Definition empty_page : PoleStudioScraper := page [].

(** A network in which the first URL of the module's list loads and
    every other URL fails, a parser that yields a page with two overview
    buttons, and a rendering of lists. *)
Definition connection_error : Py.Exc :=
  Py.mkExc Py.RequestException "HTTPSConnectionPool: Max retries exceeded".

Definition network (url : string) : Py.Result Response :=
  if String.eqb url "https://www.eversports.de/s/poda-studio"
  then Py.Returned (mkResponse "<html>")
  else Py.Raised connection_error.

Definition parser (markup features : string) : Py.Result PageElement :=
  Py.Returned
    (Tag "[document]" [] ∅
       [Tag "div" ["MuiStack-root"; "css-sgccrm"] ∅
          [a_href "#classes" "Klassen"; a_href "#team" "Team"]]).

Definition brackets (l : list string) : string := "[" +:+ join ", " l +:+ "]".

End Samples.

(* ===================================================================== *)
(** * Further vocabulary *)
(* ===================================================================== *)

(** [old in s] for strings. *)
Fixpoint occurs (old s : string) : bool :=
  match s with
  | EmptyString => String.prefix old EmptyString
  | String c s' => String.prefix old s || occurs old s'
  end.

(** A string that neither begins nor ends with white space. *)
Definition stripped (s : string) : Prop := lstrip s = s /\ rstrip s = s.

(** The overview buttons of a parsed page. *)
Definition overview_buttons_of (tree : PageElement) : list string :=
  flat_map (fun div => map text (find_all div "a" []))
           (find_all tree "div" [class_is "MuiStack-root css-sgccrm"]).

(** What constructing a [PoleStudioScraper] for a URL comes to: the parsed
    page, or the exception of the client or of the parser. *)
Definition constructed (requests_get : string -> Py.Result Response)
           (BeautifulSoup : string -> string -> Py.Result PageElement)
           (url : string) : Py.Result PageElement :=
  match requests_get url with
  | Py.Returned response => BeautifulSoup (content response) "html.parser"
  | Py.Raised e => Py.Raised e
  end.

(** The line a turn of the loop prints for a parsed page. *)
Definition buttons_line (repr : list string -> string) (url : string)
           (tree : PageElement) : string :=
  "Buttons for " +:+ url +:+ ": " +:+ repr (overview_buttons_of tree).



(** A call of one of the two handlers of the error manager, and the record
    it stands for under a logger name. *)
Inductive Report : Type :=
| UrlError (url : string) (exception : Py.Exc)
| ElementError (element_name : string) (exception : Py.Exc).

Definition report (manager : ScraperErrorManager) (r : Report) : Py.M unit :=
  match r with
  | UrlError url exception => handle_url_error manager url exception
  | ElementError element_name exception =>
      handle_element_error manager element_name exception
  end.

Definition report_record (logger_name : string) (r : Report) : Py.LogRecord :=
  match r with
  | UrlError url exception =>
      Py.mkLogRecord logger_name Py.ERROR
        ("Error accessing URL '" +:+ url +:+ "': " +:+ Py.str exception)
  | ElementError element_name exception =>
      Py.mkLogRecord logger_name Py.WARNING
        ("Error accessing element '" +:+ element_name +:+ "': " +:+ Py.str exception)
  end.

(** More sample pages and collaborators. *)
Module Cases.

(** Two contact containers one after the other. *)
Definition two_containers_page : PoleStudioScraper :=
  Samples.page
    [Tag "div" ["css-1x2phcg"] ∅
       [Samples.a_href "mailto:first@x.com" "A"; Samples.a_href "tel:+49 30 1" "T"];
     Tag "div" ["css-1x2phcg"] ∅
       [Samples.a_href "mailto:second@x.com" "B"; Samples.a_href "" "empty"]].

(** A page with two headings of the name's class and overview buttons in
    two containers, one anchor without [href]. *)
Definition buttons_page : PoleStudioScraper :=
  Samples.page
    [Tag "h1" ["MuiTypography-root"; "MuiTypography-h1"; "css-qinhw0"] ∅
       [NavigableString "Poda "; Tag "b" [] ∅ [NavigableString "Studio"]];
     Tag "h1" ["MuiTypography-root"; "MuiTypography-h1"; "css-qinhw0"] ∅
       [NavigableString "Second heading"];
     Tag "div" ["MuiStack-root"; "css-sgccrm"] ∅
       [Samples.a_href "#classes" "Klassen"; Tag "a" [] ∅ [NavigableString "Team"]];
     Tag "div" ["MuiStack-root"; "css-sgccrm"] ∅ [Samples.a_href "#prices" "Preise"]].

Definition interrupt : Py.Exc := Py.mkExc Py.KeyboardInterrupt "".
Definition parser_failure : Py.Exc := Py.mkExc Py.Exception "parser rejected the markup".

(** A network that answers every URL but ["u-timeout"] and ["u-interrupt"],
    and a parser that fails on the markup ["<broken>"]. *)
Definition network (url : string) : Py.Result Response :=
  if String.eqb url "u-timeout" then Py.Raised Samples.connection_error
  else if String.eqb url "u-interrupt" then Py.Raised interrupt
  else if String.eqb url "u-broken" then Py.Returned (mkResponse "<broken>")
  else Py.Returned (mkResponse "<html>").

Definition parser (markup features : string) : Py.Result PageElement :=
  if String.eqb markup "<broken>" then Py.Raised parser_failure
  else Py.Returned (soup buttons_page).

End Cases.

(* ===================================================================== *)
(** * Lemmas on the runtime *)
(* ===================================================================== *)

Ltac run := unfold Py.bind, Py.ret, Py.raise; simpl.

(** A computation is pure at [a] when it returns [a] in every world and
    leaves the world as it was. *)
Definition pure_at {A} (m : Py.M A) (a : A) : Prop :=
  forall w, m w = (Py.Returned a, w).

Lemma pure_ret {A} (a : A) : pure_at (Py.ret a) a.
Proof. intros w. reflexivity. Qed.

Lemma pure_bind {A B} (m : Py.M A) (k : A -> Py.M B) a b :
  pure_at m a -> pure_at (k a) b -> pure_at (Py.bind m k) b.
Proof. intros Hm Hk w. unfold Py.bind. rewrite Hm. apply Hk. Qed.

Lemma comprehension_pure {A B} (body : A -> Py.M (list B)) (f : A -> list B) l :
  (forall x, In x l -> pure_at (body x) (f x)) ->
  pure_at (Py.comprehension l body) (flat_map f l).
Proof.
  induction l as [|x l IH]; intros Hb; simpl.
  - apply pure_ret.
  - eapply pure_bind; [apply Hb; now left|].
    eapply pure_bind; [apply IH; intros y Hy; apply Hb; now right|].
    apply pure_ret.
Qed.

Lemma for_pure {A S} (body : A -> S -> Py.M S) (f : S -> A -> S) l :
  (forall x s, In x l -> pure_at (body x s) (f s x)) ->
  forall s, pure_at (Py.for_ l body s) (fold_left f l s).
Proof.
  induction l as [|x l IH]; intros Hb s; simpl.
  - apply pure_ret.
  - eapply pure_bind; [apply Hb; now left|].
    apply IH. intros y s' Hy. apply Hb. now right.
Qed.

Lemma for_app {A S} (body : A -> S -> Py.M S) l1 l2 s w :
  Py.for_ (l1 ++ l2) body s w = Py.bind (Py.for_ l1 body s) (Py.for_ l2 body) w.
Proof.
  revert s w. induction l1 as [|x l1 IH]; intros s w; simpl.
  - reflexivity.
  - unfold Py.bind. destruct (body x s w) as [[s'|e] w'].
    + rewrite IH. reflexivity.
    + reflexivity.
Qed.

Lemma flat_map_singleton_filter {A B} (p : A -> bool) (f : A -> B) l :
  flat_map (fun x => if p x then [f x] else []) l = map f (List.filter p l).
Proof.
  induction l as [|x l IH]; simpl; [reflexivity|].
  destruct (p x); simpl; now rewrite IH.
Qed.

Lemma filter_split_length {A} (p : A -> bool) l :
  length (List.filter p l) = length l - length (List.filter (fun x => negb (p x)) l).
Proof.
  induction l as [|x l IH]; simpl; [reflexivity|].
  assert (Hle : length (List.filter (fun x => negb (p x)) l) <= length l)
    by apply List.filter_length_le.
  destruct (p x); simpl; lia.
Qed.

(** What [find_all] with [href=True] returns has an [href]. *)
Lemma find_all_attr_True e name key a :
  In a (find_all e name [attr_True key]) -> is_Some (get a key).
Proof.
  unfold find_all. intros Ha. apply List.filter_In in Ha as [_ Hm].
  destruct a as [n c attrs cs|s]; simpl in Hm; [|discriminate].
  apply andb_true_iff in Hm as [_ Hm]. apply andb_true_iff in Hm as [Hm _].
  simpl. now apply bool_decide_eq_true in Hm.
Qed.

Lemma find_nothing e name filters :
  find_all e name filters = [] -> find e name filters = None.
Proof. unfold find. now intros ->. Qed.

(* ===================================================================== *)
(** * Scalar and sequence fields *)
(* ===================================================================== *)

Lemma rating_factors_run self :
  pure_at (extract_rating_factors self)
          (map factor_entry (List.filter factor_well_formed (factor_items self))).
Proof.
  unfold extract_rating_factors. fold (factor_items self).
  rewrite <- flat_map_singleton_filter.
  apply comprehension_pure. intros item _ w.
  unfold factor_well_formed, factor_entry.
  destruct (factor_label item), (factor_value item); reflexivity.
Qed.

Lemma image_urls_run self :
  pure_at (extract_image_urls self)
          (map picture_entry (List.filter picture_well_formed (pictures self))).
Proof.
  unfold extract_image_urls. fold (pictures self).
  rewrite <- flat_map_singleton_filter.
  apply comprehension_pure. intros div _ w.
  unfold picture_well_formed, picture_entry.
  destruct (find div "img" []) as [img|]; [|reflexivity].
  unfold has_attr, Tag_getitem. simpl.
  destruct (get img "src") as [v|] eqn:Hsrc.
  - rewrite bool_decide_eq_true_2 by eauto. reflexivity.
  - rewrite bool_decide_eq_false_2 by (intros [? ?]; discriminate). reflexivity.
Qed.

(** C8.  When the selector of a scalar field (name, description, sale
    text) matches no element of the document, the extractor returns [None]
    - it does not raise - and leaves the world, hence the log, as it was. *)
Theorem C8_scalar_absent_when_unmatched (self : PoleStudioScraper) (w : Py.World) :
  (find_all (soup self) "h1"
     [class_is "MuiTypography-root MuiTypography-h1 css-qinhw0"] = [] ->
   extract_pole_studio_name self w = (Py.Returned None, w))
  /\ (find_all (soup self) "div" [class_is "MuiBox-root css-0"] = [] ->
      extract_description self w = (Py.Returned None, w))
  /\ (find_all (soup self) "p"
        [class_is "MuiTypography-root MuiTypography-body1 css-153qxhx"] = [] ->
      extract_sale self w = (Py.Returned None, w)).
Proof.
  repeat split; intros H; apply find_nothing in H.
  - unfold extract_pole_studio_name. now rewrite H.
  - unfold extract_description. now rewrite H.
  - unfold extract_sale. now rewrite H.
Qed.

Lemma C8_scalar_absent_when_unmatched_witness :
  extract_pole_studio_name Samples.empty_page quiet = (Py.Returned None, quiet)
  /\ extract_description Samples.empty_page quiet = (Py.Returned None, quiet)
  /\ extract_sale Samples.empty_page quiet = (Py.Returned None, quiet).
Proof.
  destruct (C8_scalar_absent_when_unmatched Samples.empty_page quiet)
    as (Hname & Hdescription & Hsale).
  split; [apply Hname; reflexivity|].
  split; [apply Hdescription; reflexivity|apply Hsale; reflexivity].
Defined.

(** C10.  When the selector of a sequence field (overview buttons, rating
    factors, art, image URLs) matches nothing, the extractor returns the
    empty list - a list, not [None] - and the world is unchanged. *)
Theorem C10_sequence_empty_when_unmatched (self : PoleStudioScraper) (w : Py.World) :
  (find_all (soup self) "div" [class_is "MuiStack-root css-sgccrm"] = [] ->
   extract_overview_buttons self w = (Py.Returned [], w))
  /\ (find_all (soup self) "div" [class_is "MuiStack-root css-95g4uk"] = [] ->
      extract_rating_factors self w = (Py.Returned [], w))
  /\ (find_all (soup self) "p"
        [class_is "MuiTypography-root MuiTypography-body1 css-6ik050"] = [] ->
      extract_art self w = (Py.Returned [], w))
  /\ (find_all (soup self) "div" [class_is "MuiBox-root css-1fivxf"] = [] ->
      extract_image_urls self w = (Py.Returned [], w)).
Proof.
  repeat split; intros H.
  - unfold extract_overview_buttons. now rewrite H.
  - unfold extract_rating_factors. now rewrite H.
  - unfold extract_art. now rewrite H.
  - unfold extract_image_urls. now rewrite H.
Qed.

Lemma C10_sequence_empty_when_unmatched_witness :
  extract_overview_buttons Samples.empty_page quiet = (Py.Returned [], quiet)
  /\ extract_rating_factors Samples.empty_page quiet = (Py.Returned [], quiet)
  /\ extract_art Samples.empty_page quiet = (Py.Returned [], quiet)
  /\ extract_image_urls Samples.empty_page quiet = (Py.Returned [], quiet).
Proof.
  destruct (C10_sequence_empty_when_unmatched Samples.empty_page quiet)
    as (Hbuttons & Hfactors & Hart & Himages).
  split; [apply Hbuttons; reflexivity|].
  split; [apply Hfactors; reflexivity|].
  split; [apply Hart; reflexivity|apply Himages; reflexivity].
Defined.

(** C7.  If the selector of the rating factors (of the image URLs) matches
    [N] elements of which [M] lack a required part - the label or the value
    paragraph (the [img] tag or its [src]) - the extractor returns [N - M]
    entries: the entries of the well-formed elements, in document order.
    The malformed elements are passed over, nothing is raised and the
    world, hence the log, is unchanged. *)
Theorem C7_malformed_elements_skipped (self : PoleStudioScraper) (w : Py.World)
        (N M N' M' : nat) :
  length (factor_items self) = N ->
  length (List.filter (malformed factor_well_formed) (factor_items self)) = M ->
  length (pictures self) = N' ->
  length (List.filter (malformed picture_well_formed) (pictures self)) = M' ->
  (exists factors,
      extract_rating_factors self w = (Py.Returned factors, w)
      /\ length factors = N - M
      /\ factors = map factor_entry (List.filter factor_well_formed (factor_items self)))
  /\ (exists urls,
         extract_image_urls self w = (Py.Returned urls, w)
         /\ length urls = N' - M'
         /\ urls = map picture_entry (List.filter picture_well_formed (pictures self))).
Proof.
  intros HN HM HN' HM'. split.
  - eexists. split; [apply rating_factors_run|]. split; [|reflexivity].
    rewrite length_map, filter_split_length. unfold malformed in HM. lia.
  - eexists. split; [apply image_urls_run|]. split; [|reflexivity].
    rewrite length_map, filter_split_length. unfold malformed in HM'. lia.
Qed.

Lemma C7_malformed_elements_skipped_witness :
  extract_rating_factors Samples.sequences_page quiet
  = (Py.Returned ["Ambiente: 4.9"; "Trainer: 5.0"], quiet)
  /\ extract_image_urls Samples.sequences_page quiet
     = (Py.Returned ["https://img.example/1.jpg"], quiet).
Proof.
  destruct (C7_malformed_elements_skipped Samples.sequences_page quiet 3 1 3 2)
    as [(factors & Hrun & _ & Hfactors) (urls & Hrun' & _ & Hurls)];
    try reflexivity.
  split.
  - rewrite Hrun, Hfactors. reflexivity.
  - rewrite Hrun', Hurls. reflexivity.
Defined.

(* ===================================================================== *)
(** * Contact information *)
(* ===================================================================== *)

Lemma contact_anchor_run a h info :
  get a "href" = Some h -> pure_at (contact_anchor a info) (contact_update info h).
Proof.
  intros Hh w. unfold contact_anchor, Tag_getitem, contact_update. rewrite Hh. run.
  destruct (startswith h "mailto:"); [reflexivity|].
  destruct (startswith h "tel:"); reflexivity.
Qed.

Lemma anchors_run l :
  Forall (fun a => is_Some (get a "href")) l ->
  forall info,
    pure_at (Py.for_ l contact_anchor info) (fold_left contact_update (hrefs l) info).
Proof.
  induction 1 as [|a l [h Hh] _ IH]; intros info; simpl.
  - apply pure_ret.
  - unfold hrefs. simpl. rewrite Hh. simpl.
    eapply pure_bind; [apply (contact_anchor_run _ _ _ Hh)|apply IH].
Qed.

Lemma hrefs_app l1 l2 : hrefs (l1 ++ l2) = hrefs l1 ++ hrefs l2.
Proof. apply omap_app. Qed.

Lemma containers_run divs :
  forall info,
    pure_at
      (Py.for_ divs
         (fun div contact_info =>
            Py.for_ (find_all div "a" [attr_True "href"]) contact_anchor contact_info)
         info)
      (fold_left contact_update
         (hrefs (flat_map (fun div => find_all div "a" [attr_True "href"]) divs)) info).
Proof.
  induction divs as [|div divs IH]; intros info; simpl.
  - apply pure_ret.
  - rewrite hrefs_app, fold_left_app.
    eapply pure_bind; [|apply IH].
    apply anchors_run. apply List.Forall_forall. intros a Ha.
    eapply find_all_attr_True, Ha.
Qed.

(** The method is the left fold of [contact_update] over the hrefs of the
    anchors it visits. *)
Lemma extract_contact_info_run self :
  pure_at (extract_contact_info self)
          (fold_left contact_update (hrefs (visited_anchors self)) contact_info_init).
Proof. apply containers_run. Qed.

(** A key whose value [contact_update] sets for the hrefs of one category,
    and leaves alone otherwise, ends with the last href of the category. *)
Lemma fold_last_write (k : string) (category : string -> bool)
      (render : string -> string) :
  (forall info h,
      contact_update info h !! k
      = if category h then Some (Some (render h)) else info !! k) ->
  forall hs info,
    fold_left contact_update hs info !! k
    = match last_write category render hs with
      | Some v => Some (Some v)
      | None => info !! k
      end.
Proof.
  intros Hstep. unfold last_write.
  induction hs as [|h hs IH]; intros info; simpl; [reflexivity|].
  rewrite IH, Hstep.
  destruct (category h); [|reflexivity].
  rewrite last_cons. destruct (last (List.filter category hs)); reflexivity.
Qed.

Lemma contact_update_mail info h :
  contact_update info h !! "E-Mail"
  = if is_mail h then Some (Some (replace h "mailto:" "")) else info !! "E-Mail".
Proof.
  unfold contact_update, is_mail.
  destruct (startswith h "mailto:"); [apply lookup_insert_eq|].
  destruct (startswith h "tel:"); now rewrite lookup_insert_ne.
Qed.

Lemma contact_update_tel info h :
  contact_update info h !! "Telefon"
  = if is_tel h then Some (Some (replace h "tel:" "")) else info !! "Telefon".
Proof.
  unfold contact_update, is_tel.
  destruct (startswith h "mailto:"); simpl; [now rewrite lookup_insert_ne|].
  destruct (startswith h "tel:"); [apply lookup_insert_eq|now rewrite lookup_insert_ne].
Qed.

Lemma contact_update_homepage info h :
  contact_update info h !! "Homepage"
  = if is_other h then Some (Some h) else info !! "Homepage".
Proof.
  unfold contact_update, is_other.
  destruct (startswith h "mailto:"); simpl; [now rewrite lookup_insert_ne|].
  destruct (startswith h "tel:"); simpl; [now rewrite lookup_insert_ne|].
  apply lookup_insert_eq.
Qed.

Lemma contact_update_other_key info h k :
  k <> "E-Mail" -> k <> "Telefon" -> k <> "Homepage" ->
  contact_update info h !! k = if false then Some (Some h) else info !! k.
Proof.
  intros H1 H2 H3. unfold contact_update.
  destruct (startswith h "mailto:"); [now rewrite lookup_insert_ne|].
  destruct (startswith h "tel:"); now rewrite lookup_insert_ne.
Qed.

Lemma contact_fold_other_key hs info k :
  k <> "E-Mail" -> k <> "Telefon" -> k <> "Homepage" ->
  fold_left contact_update hs info !! k = info !! k.
Proof.
  intros H1 H2 H3.
  rewrite (fold_last_write k (fun _ => false) (fun h => h))
    by (intros; now apply contact_update_other_key).
  unfold last_write.
  replace (List.filter (fun _ : string => false) hs) with (@nil string);
    [reflexivity|].
  induction hs; simpl; auto.
Qed.

Lemma contact_update_dom info h :
  {["E-Mail"; "Homepage"; "Telefon"]} ⊆ dom info ->
  dom (contact_update info h) = dom info.
Proof.
  intros Hsub. unfold contact_update.
  destruct (startswith h "mailto:"); [|destruct (startswith h "tel:")];
    rewrite dom_insert_L; apply subseteq_union_1_L, singleton_subseteq_l, Hsub;
    rewrite !elem_of_union, !elem_of_singleton; auto.
Qed.

Lemma contact_fold_dom hs :
  forall info,
    {["E-Mail"; "Homepage"; "Telefon"]} ⊆ dom info ->
    dom (fold_left contact_update hs info) = dom info.
Proof.
  induction hs as [|h hs IH]; intros info Hsub; simpl; [reflexivity|].
  rewrite IH; rewrite contact_update_dom; auto.
Qed.

Lemma contact_info_init_dom :
  dom contact_info_init = ({["E-Mail"; "Homepage"; "Telefon"]} : gset string).
Proof. unfold contact_info_init. rewrite !dom_insert_L, dom_empty_L. set_solver. Qed.

Lemma filter_Permutation_bool {A} (p : A -> bool) l l' :
  Permutation l l' -> Permutation (List.filter p l) (List.filter p l').
Proof.
  intros Hperm.
  induction Hperm as [|x l l' Hperm IH|x y l|l l' l'' Hperm1 IH1 Hperm2 IH2]; simpl.
  - constructor.
  - destruct (p x); [now constructor|assumption].
  - destruct (p x), (p y); try reflexivity. apply perm_swap.
  - now transitivity (List.filter p l').
Qed.

(** In a permutation of a list with exactly one href of a category, the
    category's last href is that one. *)
Lemma last_write_unique category render hs hs' h :
  Permutation hs hs' -> List.filter category hs' = [h] ->
  last_write category render hs = Some (render h).
Proof.
  intros Hperm Hone. unfold last_write.
  apply (filter_Permutation_bool category) in Hperm. rewrite Hone in Hperm.
  apply Permutation_sym, Permutation_length_1_inv in Hperm. now rewrite Hperm.
Qed.

(** C2.  If the hrefs of the anchors that contact extraction visits are
    [mailto:a@x.com], [tel:123] and [https://example.com], in any order,
    the method returns the dictionary with ["E-Mail"] at ["a@x.com"],
    ["Telefon"] at ["123"] and ["Homepage"] at ["https://example.com"]:
    an href is classified by its prefix, whatever its position. *)
Theorem C2_contact_classification_any_order (self : PoleStudioScraper) (w : Py.World) :
  Permutation (hrefs (visited_anchors self))
              ["mailto:a@x.com"; "tel:123"; "https://example.com"] ->
  extract_contact_info self w
  = (Py.Returned
       (<["E-Mail" := Some "a@x.com"]>
          (<["Homepage" := Some "https://example.com"]>
             (<["Telefon" := Some "123"]> ∅))), w).
Proof.
  intros Hperm. rewrite extract_contact_info_run. do 2 f_equal.
  apply map_eq. intros k.
  destruct (decide (k = "E-Mail")) as [->|Hmail].
  { rewrite (fold_last_write _ _ _ contact_update_mail).
    now rewrite (last_write_unique _ _ _ _ "mailto:a@x.com" Hperm). }
  destruct (decide (k = "Telefon")) as [->|Htel].
  { rewrite (fold_last_write _ _ _ contact_update_tel).
    now rewrite (last_write_unique _ _ _ _ "tel:123" Hperm). }
  destruct (decide (k = "Homepage")) as [->|Hhome].
  { rewrite (fold_last_write _ _ _ contact_update_homepage).
    now rewrite (last_write_unique _ _ _ _ "https://example.com" Hperm). }
  rewrite contact_fold_other_key by assumption.
  unfold contact_info_init. now rewrite !lookup_insert_ne.
Qed.

Lemma C2_contact_classification_any_order_witness :
  hrefs (visited_anchors Samples.contact_page)
  = ["https://example.com"; "tel:123"; "mailto:a@x.com"]
  /\ extract_contact_info Samples.contact_page quiet
     = (Py.Returned
          (<["E-Mail" := Some "a@x.com"]>
             (<["Homepage" := Some "https://example.com"]>
                (<["Telefon" := Some "123"]> ∅))), quiet).
Proof.
  split; [reflexivity|].
  apply (C2_contact_classification_any_order Samples.contact_page quiet).
  change (hrefs (visited_anchors Samples.contact_page))
    with ["https://example.com"; "tel:123"; "mailto:a@x.com"].
  apply (Permutation_rev ["https://example.com"; "tel:123"; "mailto:a@x.com"]).
Defined.

(** C3, as stated, fails.  On the page below the outer contact container
    holds two mail anchors, [a@x.com] first and [b@x.com] second in
    document order - they are the only anchors of the page - yet the method
    returns ["a@x.com"]: the first anchor lies in a contact container nested
    in the outer one, and is visited again after the second. *)
Lemma C3_nested_container_keeps_first_anchor :
  (exists outer inner,
      contact_divs Samples.nested_contact_page = [outer; inner]
      /\ hrefs (find_all outer "a" [attr_True "href"])
         = ["mailto:a@x.com"; "mailto:b@x.com"])
  /\ hrefs (find_all (soup Samples.nested_contact_page) "a" [attr_True "href"])
     = ["mailto:a@x.com"; "mailto:b@x.com"]
  /\ exists info,
      extract_contact_info Samples.nested_contact_page quiet = (Py.Returned info, quiet)
      /\ info !! "E-Mail" = Some (Some "a@x.com")
      /\ info !! "E-Mail" <> Some (Some "b@x.com").
Proof.
  split; [do 2 eexists; split; reflexivity|]. split; [reflexivity|].
  eexists. split; [apply extract_contact_info_run|].
  assert (Hmail : fold_left contact_update
                    (hrefs (visited_anchors Samples.nested_contact_page))
                    contact_info_init !! "E-Mail" = Some (Some "a@x.com")).
  { rewrite (fold_last_write _ _ _ contact_update_mail). reflexivity. }
  split; [exact Hmail|]. rewrite Hmail. discriminate.
Qed.

(** C3, amended.  For every document, each category ends with the value of
    its last anchor in the order the loops visit the anchors: the elements
    matching the contact selector in document order, a container nested in
    another included, and inside each of them its anchors with an [href] in
    document order.  When the hrefs visited are [mailto:a@x.com] then
    [mailto:b@x.com], ["E-Mail"] ends at ["b@x.com"]; and in a document
    with one contact container the anchors visited are the anchors of that
    container in document order, so that [a@x.com] first and [b@x.com]
    second there gives ["b@x.com"]. *)
Theorem C3_contact_last_visit_is_kept (self : PoleStudioScraper) (w : Py.World) :
  exists info,
    extract_contact_info self w = (Py.Returned info, w)
    /\ info !! "E-Mail"
       = Some (last_write is_mail (fun h => replace h "mailto:" "")
                          (hrefs (visited_anchors self)))
    /\ info !! "Telefon"
       = Some (last_write is_tel (fun h => replace h "tel:" "")
                          (hrefs (visited_anchors self)))
    /\ info !! "Homepage"
       = Some (last_write is_other (fun h => h) (hrefs (visited_anchors self)))
    /\ (hrefs (visited_anchors self) = ["mailto:a@x.com"; "mailto:b@x.com"] ->
        info !! "E-Mail" = Some (Some "b@x.com"))
    /\ (forall container,
           contact_divs self = [container] ->
           visited_anchors self = find_all container "a" [attr_True "href"]
           /\ (hrefs (find_all container "a" [attr_True "href"])
               = ["mailto:a@x.com"; "mailto:b@x.com"] ->
               info !! "E-Mail" = Some (Some "b@x.com"))).
Proof.
  eexists. split; [apply extract_contact_info_run|].
  set (hs := hrefs (visited_anchors self)).
  assert (Hmail : fold_left contact_update hs contact_info_init !! "E-Mail"
                  = Some (last_write is_mail (fun h => replace h "mailto:" "") hs)).
  { rewrite (fold_last_write _ _ _ contact_update_mail).
    now destruct (last_write is_mail _ hs). }
  assert (Htwo : hs = ["mailto:a@x.com"; "mailto:b@x.com"] ->
                 fold_left contact_update hs contact_info_init !! "E-Mail"
                 = Some (Some "b@x.com")).
  { intros Hhs. rewrite Hmail, Hhs. reflexivity. }
  split; [exact Hmail|]. split; [|split; [|split; [exact Htwo|]]].
  - rewrite (fold_last_write _ _ _ contact_update_tel).
    now destruct (last_write is_tel _ hs).
  - rewrite (fold_last_write _ _ _ contact_update_homepage).
    now destruct (last_write is_other _ hs).
  - intros container Hone.
    assert (Hvisited : visited_anchors self
                       = find_all container "a" [attr_True "href"]).
    { unfold visited_anchors. rewrite Hone. simpl. now rewrite app_nil_r. }
    split; [exact Hvisited|]. intros Hhs. apply Htwo. subst hs. now rewrite Hvisited.
Qed.

Lemma C3_contact_last_visit_is_kept_witness :
  exists info,
    extract_contact_info Samples.two_mails_page quiet = (Py.Returned info, quiet)
    /\ info !! "E-Mail" = Some (Some "b@x.com").
Proof.
  destruct (C3_contact_last_visit_is_kept Samples.two_mails_page quiet)
    as (info & Hrun & _ & _ & _ & _ & Hone).
  exists info. split; [exact Hrun|].
  destruct (Hone (Tag "div" ["css-1x2phcg"] ∅
                    [Samples.a_href "mailto:a@x.com" "A";
                     Samples.a_href "mailto:b@x.com" "B"]))
    as [_ Hlast]; [reflexivity|].
  apply Hlast. reflexivity.
Defined.

(** C9.  Contact extraction always returns a dictionary whose keys are
    exactly ["E-Mail"], ["Homepage"] and ["Telefon"], each bound to [None]
    or to a string; when no container matches, or no container holds an
    anchor with an [href], the three values are [None]. *)
Theorem C9_contact_keys_fixed (self : PoleStudioScraper) (w : Py.World) :
  exists info : gmap string (option string),
    extract_contact_info self w = (Py.Returned info, w)
    /\ dom info = ({["E-Mail"; "Homepage"; "Telefon"]} : gset string)
    /\ (forall k, k ∈ ({["E-Mail"; "Homepage"; "Telefon"]} : gset string) ->
                  exists v : option string, info !! k = Some v)
    /\ (contact_divs self = []
        \/ Forall (fun div => find_all div "a" [attr_True "href"] = [])
                  (contact_divs self) ->
        info !! "E-Mail" = Some None
        /\ info !! "Homepage" = Some None
        /\ info !! "Telefon" = Some None).
Proof.
  eexists. split; [apply extract_contact_info_run|].
  assert (Hdom : dom (fold_left contact_update (hrefs (visited_anchors self))
                        contact_info_init)
                 = ({["E-Mail"; "Homepage"; "Telefon"]} : gset string)).
  { rewrite contact_fold_dom; rewrite contact_info_init_dom; set_solver. }
  split; [exact Hdom|]. split.
  - intros k Hk. rewrite <- Hdom in Hk. apply elem_of_dom in Hk as [v Hv]. eauto.
  - intros Hnone.
    assert (Hvisited : visited_anchors self = []).
    { unfold visited_anchors. destruct Hnone as [->|Hall]; [reflexivity|].
      induction Hall as [|div divs Hdiv _ IH]; simpl; [reflexivity|].
      now rewrite Hdiv, IH. }
    rewrite Hvisited. simpl. repeat split; reflexivity.
Qed.

Lemma C9_contact_keys_fixed_witness :
  exists info : gmap string (option string),
    extract_contact_info Samples.empty_page quiet = (Py.Returned info, quiet)
    /\ dom info = ({["E-Mail"; "Homepage"; "Telefon"]} : gset string)
    /\ info !! "E-Mail" = Some None
    /\ info !! "Homepage" = Some None
    /\ info !! "Telefon" = Some None.
Proof.
  destruct (C9_contact_keys_fixed Samples.empty_page quiet)
    as (info & Hrun & Hdom & _ & Hnone).
  exists info. split; [exact Hrun|]. split; [exact Hdom|].
  apply Hnone. left. reflexivity.
Defined.

(* ===================================================================== *)
(** * Rating and address *)
(* ===================================================================== *)

Lemma split_nonempty s c : split s c <> [].
Proof.
  destruct s as [|c' s]; simpl; [discriminate|].
  destruct (Ascii.eqb c' c); [discriminate|]. destruct (split s c); discriminate.
Qed.

(** Without the separator in it, a string is its only part. *)
Lemma split_without_separator s c : contains s c = false -> split s c = [s].
Proof.
  induction s as [|c' s IH]; simpl; [reflexivity|].
  intros H. apply orb_false_iff in H as [Hc Hs]. rewrite Hc, (IH Hs). reflexivity.
Qed.

(** The first part ends at the first separator. *)
Lemma split_at_first_separator a b c :
  contains a c = false ->
  split (a +:+ String c b) c = a :: split b c.
Proof.
  induction a as [|c' a IH]; simpl.
  - intros _. now rewrite Ascii.eqb_refl.
  - intros H. apply orb_false_iff in H as [Hc Ha]. rewrite Hc, (IH Ha). reflexivity.
Qed.



(** With at least two parts, the rating is read from the first two. *)
Lemma extract_rating_parts self e p0 p1 rest :
  find (soup self) "p"
       [class_is "MuiTypography-root MuiTypography-body1 css-2g7rhg"] = Some e ->
  split (text e) "(" = p0 :: p1 :: rest ->
  pure_at (extract_rating self) (Some (strip p0), Some (strip (replace p1 ")" ""))).
Proof.
  intros He Hparts w. unfold extract_rating. rewrite He. simpl. now rewrite Hparts.
Qed.

(** With enough segments and tokens, the address is read from fixed
    positions: the whole list of segments, the third and the second token
    of the second segment, and the first segment. *)
Lemma extract_address_positions self e s0 s1 rest t0 t1 t2 rest' :
  find (soup self) "p"
       [class_is "MuiTypography-root MuiTypography-body1 css-1619old"] = Some e ->
  split (text e) "," = s0 :: s1 :: rest ->
  split s1 " " = t0 :: t1 :: t2 :: rest' ->
  pure_at (extract_address self)
          (Some (s0 :: s1 :: rest), Some t2, Some t1, Some s0).
Proof.
  intros He Hsegments Htokens w. unfold extract_address. rewrite He. simpl.
  rewrite Hsegments. run. rewrite Htokens. reflexivity.
Qed.

(** C4, as stated, fails: a rating paragraph whose text is ["4.8"], without
    ["("], makes the method raise [IndexError]; it does not return an absent
    rating. *)
Lemma C4_rating_without_parenthesis_is_an_error :
  find (soup (Samples.rating_page "4.8")) "p"
       [class_is "MuiTypography-root MuiTypography-body1 css-2g7rhg"]
  = Some (Samples.p_ ["css-2g7rhg"] "4.8")
  /\ contains (text (Samples.p_ ["css-2g7rhg"] "4.8")) "(" = false
  /\ extract_rating (Samples.rating_page "4.8") quiet
     = (Py.Raised index_error, quiet)
  /\ extract_rating (Samples.rating_page "4.8") quiet
     <> (Py.Returned (None, None), quiet).
Proof. repeat split; try reflexivity. discriminate. Qed.

(** C4, amended.  Rating extraction splits the text of the matched element
    at every ["("] and returns the first part stripped and the second part
    with every [")"] removed and stripped; when the text has one ["("]
    these are the left side and the right side, and ["4.8 (123)"] gives
    [("4.8", "123")].  A text without ["("] makes the method raise
    [IndexError]; the rating is absent, [(None, None)], only when no element
    matches. *)
Theorem C4_rating_split (self : PoleStudioScraper) (w : Py.World) :
  let rating_element :=
    find (soup self) "p"
         [class_is "MuiTypography-root MuiTypography-body1 css-2g7rhg"] in
  (rating_element = None -> extract_rating self w = (Py.Returned (None, None), w))
  /\ forall e, rating_element = Some e ->
       (forall left right,
           text e = left +:+ String "(" right -> contains left "(" = false ->
           exists part, head (split right "(") = Some part
             /\ (contains right "(" = false -> part = right)
             /\ extract_rating self w
                = (Py.Returned (Some (strip left),
                                Some (strip (replace part ")" ""))), w))
       /\ (text e = "4.8 (123)" ->
           extract_rating self w = (Py.Returned (Some "4.8", Some "123"), w))
       /\ (contains (text e) "(" = false ->
           extract_rating self w = (Py.Raised index_error, w)).
Proof.
  intros rating_element. subst rating_element. split.
  - intros Hnone. unfold extract_rating. now rewrite Hnone.
  - intros e He. split; [|split].
    + intros left right Htext Hleft.
      pose proof (split_at_first_separator left right "(" Hleft) as Hsplit.
      rewrite <- Htext in Hsplit.
      destruct (split right "(") as [|part rest] eqn:Hright;
        [now apply split_nonempty in Hright|].
      exists part. split; [reflexivity|]. split.
      * intros Hno. rewrite (split_without_separator _ _ Hno) in Hright.
        now inversion Hright.
      * now apply (extract_rating_parts self e left part rest).
    + intros Htext.
      apply (extract_rating_parts self e "4.8 " "123)" []); [exact He|].
      now rewrite Htext.
    + intros Hno. unfold extract_rating. rewrite He. simpl.
      rewrite (split_without_separator _ _ Hno). reflexivity.
Qed.

Lemma C4_rating_split_witness :
  extract_rating (Samples.rating_page "4.8 (123)") quiet
  = (Py.Returned (Some "4.8", Some "123"), quiet)
  /\ extract_rating (Samples.rating_page "4.8") quiet = (Py.Raised index_error, quiet)
  /\ extract_rating Samples.empty_page quiet = (Py.Returned (None, None), quiet).
Proof.
  split; [|split].
  - destruct (C4_rating_split (Samples.rating_page "4.8 (123)") quiet) as [_ Hsome].
    destruct (Hsome (Samples.p_ ["css-2g7rhg"] "4.8 (123)")) as (_ & Hexample & _);
      [reflexivity|].
    apply Hexample. reflexivity.
  - destruct (C4_rating_split (Samples.rating_page "4.8") quiet) as [_ Hsome].
    destruct (Hsome (Samples.p_ ["css-2g7rhg"] "4.8")) as (_ & _ & Hraise);
      [reflexivity|].
    apply Hraise. reflexivity.
  - destruct (C4_rating_split Samples.empty_page quiet) as [Hnone _].
    apply Hnone. reflexivity.
Defined.

(** C5.  When the text of the address element is
    ["Main St 5, 10115 Berlin"], the comma split gives the segments
    ["Main St 5"] and [" 10115 Berlin"], and the method returns these
    segments, ["Berlin"] (third space-separated token of the second
    segment), ["10115"] (its second token) and ["Main St 5"] (the first
    segment as it is). *)
Theorem C5_address_example (self : PoleStudioScraper) (e : PageElement) (w : Py.World) :
  find (soup self) "p"
       [class_is "MuiTypography-root MuiTypography-body1 css-1619old"] = Some e ->
  text e = "Main St 5, 10115 Berlin" ->
  split (text e) "," = ["Main St 5"; " 10115 Berlin"]
  /\ split " 10115 Berlin" " " = [""; "10115"; "Berlin"]
  /\ extract_address self w
     = (Py.Returned (Some ["Main St 5"; " 10115 Berlin"],
                     Some "Berlin", Some "10115", Some "Main St 5"), w).
Proof.
  intros He Htext.
  assert (Hsegments : split (text e) "," = ["Main St 5"; " 10115 Berlin"])
    by now rewrite Htext.
  split; [exact Hsegments|]. split; [reflexivity|].
  now apply (extract_address_positions self e _ _ _ "" "10115" "Berlin" [] He Hsegments).
Qed.

Lemma C5_address_example_witness :
  extract_address (Samples.address_page "Main St 5, 10115 Berlin") quiet
  = (Py.Returned (Some ["Main St 5"; " 10115 Berlin"],
                  Some "Berlin", Some "10115", Some "Main St 5"), quiet).
Proof.
  apply (C5_address_example (Samples.address_page "Main St 5, 10115 Berlin")
           (Samples.p_ ["css-1619old"] "Main St 5, 10115 Berlin") quiet);
    reflexivity.
Defined.




(* ===================================================================== *)
(** * The loop over the URLs *)
(* ===================================================================== *)

Lemma batch_cons requests_get BeautifulSoup repr url urls w :
  batch requests_get BeautifulSoup repr (url :: urls) w
  = Py.bind (loop_body requests_get BeautifulSoup repr url)
            (fun _ => batch requests_get BeautifulSoup repr urls) w.
Proof.
  unfold batch. simpl. unfold Py.bind.
  destruct (loop_body requests_get BeautifulSoup repr url w) as [[[]|e] w'];
    reflexivity.
Qed.

Lemma batch_app requests_get BeautifulSoup repr urls1 urls2 w :
  batch requests_get BeautifulSoup repr (urls1 ++ urls2) w
  = Py.bind (batch requests_get BeautifulSoup repr urls1)
            (fun _ => batch requests_get BeautifulSoup repr urls2) w.
Proof.
  unfold batch. rewrite for_app. unfold Py.bind.
  destruct (Py.for_ urls1 _ tt w) as [[[]|e] w']; reflexivity.
Qed.

(** A turn whose request raises a [RequestException]: the first clause
    logs one error record; nothing is printed. *)
Lemma loop_body_request_failure requests_get BeautifulSoup repr url e w :
  requests_get url = Py.Raised e ->
  Py.isinstance e Py.RequestException = true ->
  loop_body requests_get BeautifulSoup repr url w
  = (Py.Returned tt, with_record w (url_error_record url e)).
Proof.
  intros Hget Hclass.
  unfold loop_body, Py.try_, PoleStudioScraper_init, Py.bind, call.
  rewrite Hget. simpl. rewrite Hclass. reflexivity.
Qed.

(** An exception that is an instance of [Exception] always finds a
    clause, and both clauses end normally. *)
Lemma except_clauses_catch url e w :
  Py.isinstance e Py.Exception = true ->
  exists w',
    match Py.select_clause e (except_clauses url) with
    | Some c => Py.handler c e w
    | None => (Py.Raised e, w)
    end = (Py.Returned tt, w').
Proof.
  intros Hexc. simpl.
  destruct (Py.isinstance e Py.RequestException); [eexists; reflexivity|].
  rewrite Hexc. eexists. reflexivity.
Qed.

Lemma loop_body_returns requests_get BeautifulSoup repr url w :
  (forall u, ordinary (requests_get u)) ->
  (forall markup features, ordinary (BeautifulSoup markup features)) ->
  exists w', loop_body requests_get BeautifulSoup repr url w = (Py.Returned tt, w').
Proof.
  intros Hget Hparse.
  unfold loop_body, Py.try_, PoleStudioScraper_init, Py.bind, call.
  specialize (Hget url).
  destruct (requests_get url) as [response|e]; simpl in *;
    [|now apply except_clauses_catch].
  specialize (Hparse (content response) "html.parser").
  destruct (BeautifulSoup (content response) "html.parser") as [tree|e]; simpl in *;
    [|now apply except_clauses_catch].
  eexists. reflexivity.
Qed.

Lemma batch_returns requests_get BeautifulSoup repr urls :
  (forall u, ordinary (requests_get u)) ->
  (forall markup features, ordinary (BeautifulSoup markup features)) ->
  forall w, exists w', batch requests_get BeautifulSoup repr urls w = (Py.Returned tt, w').
Proof.
  intros Hget Hparse.
  induction urls as [|url urls IH]; intros w.
  - eexists. reflexivity.
  - rewrite batch_cons. unfold Py.bind.
    destruct (loop_body_returns requests_get BeautifulSoup repr url w Hget Hparse)
      as [w1 ->].
    apply IH.
Qed.

(** C1.  When the request for a URL raises a [RequestException], the turn
    of the loop for that URL prints nothing, adds exactly one record to the
    log - an [ERROR] whose message quotes the URL - and ends normally; the
    loop then runs the remaining URLs from there.  And as long as every
    failure of the HTTP client and of the parser is an [Exception], the loop
    over any list of URLs runs to its end. *)
Theorem C1_retrieval_failure_is_isolated
        (requests_get : string -> Py.Result Response)
        (BeautifulSoup : string -> string -> Py.Result PageElement)
        (repr : list string -> string)
        (before after : list string) (url : string) (e : Py.Exc) (w : Py.World) :
  requests_get url = Py.Raised e ->
  Py.isinstance e Py.RequestException = true ->
  loop_body requests_get BeautifulSoup repr url w
  = (Py.Returned tt,
     Py.mkWorld (Py.stdout w)
       (Py.records w
        ++ [Py.mkLogRecord "scraper_error_logger" Py.ERROR
              ("Error accessing URL '" +:+ url +:+ "': " +:+ Py.str e)]))
  /\ (forall w1,
         batch requests_get BeautifulSoup repr before w = (Py.Returned tt, w1) ->
         batch requests_get BeautifulSoup repr (before ++ url :: after) w
         = batch requests_get BeautifulSoup repr after
             (with_record w1 (url_error_record url e)))
  /\ ((forall u, ordinary (requests_get u)) ->
      (forall markup features, ordinary (BeautifulSoup markup features)) ->
      forall urls,
      exists w', batch requests_get BeautifulSoup repr urls w = (Py.Returned tt, w')).
Proof.
  intros Hget Hclass. split; [|split].
  - now apply loop_body_request_failure.
  - intros w1 Hbefore. rewrite batch_app. unfold Py.bind. rewrite Hbefore.
    rewrite batch_cons. unfold Py.bind.
    now rewrite (loop_body_request_failure _ _ _ _ e w1 Hget Hclass).
  - intros Hgets Hparses urls. now apply batch_returns.
Qed.

Lemma C1_retrieval_failure_is_isolated_witness :
  main Samples.network Samples.parser Samples.brackets quiet
  = (Py.Returned tt,
     Py.mkWorld
       ["Buttons for https://www.eversports.de/s/poda-studio: [Klassen, Team]"]
       [Py.mkLogRecord "scraper_error_logger" Py.ERROR
          "Error accessing URL 'https://www.eversports.de/s/nordpole': HTTPSConnectionPool: Max retries exceeded"]).
Proof.
  destruct (C1_retrieval_failure_is_isolated
              Samples.network Samples.parser Samples.brackets
              ["https://www.eversports.de/s/poda-studio"] []
              "https://www.eversports.de/s/nordpole" Samples.connection_error
              quiet)
    as (_ & Hgoes_on & _); [reflexivity|reflexivity|].
  unfold main, url_list_s.
  change ["https://www.eversports.de/s/poda-studio";
          "https://www.eversports.de/s/nordpole"]
    with (["https://www.eversports.de/s/poda-studio"]
            ++ ["https://www.eversports.de/s/nordpole"]).
  rewrite (Hgoes_on
             (Py.mkWorld
                ["Buttons for https://www.eversports.de/s/poda-studio: [Klassen, Team]"]
                [])) by reflexivity.
  reflexivity.
Defined.

(* ===================================================================== *)
(** * More on the loop: the three ways a turn can end *)
(* ===================================================================== *)

Lemma loop_body_unfold requests_get BeautifulSoup repr url w :
  loop_body requests_get BeautifulSoup repr url w
  = match constructed requests_get BeautifulSoup url with
    | Py.Returned tree =>
        (Py.Returned tt,
         Py.mkWorld (Py.stdout w ++ [buttons_line repr url tree]) (Py.records w))
    | Py.Raised e =>
        match Py.select_clause e (except_clauses url) with
        | Some c => Py.handler c e w
        | None => (Py.Raised e, w)
        end
    end.
Proof.
  unfold loop_body, Py.try_, PoleStudioScraper_init, Py.bind, call, constructed.
  destruct (requests_get url) as [response|e]; simpl; [|reflexivity].
  destruct (BeautifulSoup (content response) "html.parser") as [tree|e]; reflexivity.
Qed.

Lemma not_exception_not_request e :
  Py.isinstance e Py.Exception = false ->
  Py.isinstance e Py.RequestException = false.
Proof. unfold Py.isinstance. destruct (Py.exc_class e); simpl; congruence. Qed.



(** X2.  A turn in which the client or the parser raises an [Exception]
    that is not a [RequestException] is caught by the second clause: it logs
    one [WARNING] labelled ['overview buttons'] - whatever the URL, which
    the message does not mention - prints nothing and ends normally. *)
Theorem loop_body_other_exception requests_get BeautifulSoup repr url e w :
  constructed requests_get BeautifulSoup url = Py.Raised e ->
  Py.isinstance e Py.RequestException = false ->
  Py.isinstance e Py.Exception = true ->
  loop_body requests_get BeautifulSoup repr url w
  = (Py.Returned tt,
     Py.mkWorld (Py.stdout w)
       (Py.records w
        ++ [Py.mkLogRecord "scraper_error_logger" Py.WARNING
              ("Error accessing element 'overview buttons': " +:+ Py.str e)])).
Proof.
  intros Hraise Hnot Hexc. rewrite loop_body_unfold, Hraise. simpl.
  now rewrite Hnot, Hexc.
Qed.

Lemma loop_body_other_exception_witness :
  loop_body Cases.network Cases.parser Samples.brackets "u-broken" quiet
  = (Py.Returned tt,
     Py.mkWorld []
       [Py.mkLogRecord "scraper_error_logger" Py.WARNING
          "Error accessing element 'overview buttons': parser rejected the markup"]).
Proof.
  apply (loop_body_other_exception Cases.network Cases.parser Samples.brackets
           "u-broken" Cases.parser_failure quiet); reflexivity.
Defined.

(** X3.  An exception that is not an instance of [Exception] is caught by
    no clause: it leaves the turn, and the loop, at once.  What the earlier
    URLs printed and logged stays; the URLs after it are not visited. *)
Theorem batch_interrupted requests_get BeautifulSoup repr before url after e w w1 :
  batch requests_get BeautifulSoup repr before w = (Py.Returned tt, w1) ->
  constructed requests_get BeautifulSoup url = Py.Raised e ->
  Py.isinstance e Py.Exception = false ->
  batch requests_get BeautifulSoup repr (before ++ url :: after) w = (Py.Raised e, w1).
Proof.
  intros Hbefore Hraise Hbase.
  rewrite batch_app. unfold Py.bind. rewrite Hbefore, batch_cons. unfold Py.bind.
  rewrite loop_body_unfold, Hraise. simpl.
  now rewrite (not_exception_not_request e Hbase), Hbase.
Qed.

Lemma batch_interrupted_witness :
  batch Cases.network Cases.parser Samples.brackets
        ["u-timeout"; "u-interrupt"; "u-ok"] quiet
  = (Py.Raised Cases.interrupt,
     Py.mkWorld []
       [Py.mkLogRecord "scraper_error_logger" Py.ERROR
          "Error accessing URL 'u-timeout': HTTPSConnectionPool: Max retries exceeded"]).
Proof.
  apply (batch_interrupted Cases.network Cases.parser Samples.brackets
           ["u-timeout"] "u-interrupt" ["u-ok"] Cases.interrupt quiet);
    reflexivity.
Defined.





Lemma loop_body_appends requests_get BeautifulSoup repr url w :
  exists lines recs,
    snd (loop_body requests_get BeautifulSoup repr url w)
    = Py.mkWorld (Py.stdout w ++ lines) (Py.records w ++ recs)
    /\ length lines + length recs <= 1.
Proof.
  rewrite loop_body_unfold.
  destruct (constructed requests_get BeautifulSoup url) as [tree|e]; simpl.
  - exists [buttons_line repr url tree], []. rewrite app_nil_r. split; [reflexivity|simpl; lia].
  - destruct (Py.isinstance e Py.RequestException); simpl.
    + eexists [], [_]. rewrite app_nil_r. split; [reflexivity|simpl; lia].
    + destruct (Py.isinstance e Py.Exception); simpl.
      * eexists [], [_]. rewrite app_nil_r. split; [reflexivity|simpl; lia].
      * exists [], []. rewrite !app_nil_r. destruct w. split; [reflexivity|simpl; lia].
Qed.

(** X5.  Whatever the client and the parser do, and however the loop
    ends, it only appends: the lines and the records that were there are
    kept in front, and at most one line or record is added per URL. *)
Theorem batch_append_only requests_get BeautifulSoup repr urls w :
  exists lines recs,
    snd (batch requests_get BeautifulSoup repr urls w)
    = Py.mkWorld (Py.stdout w ++ lines) (Py.records w ++ recs)
    /\ length lines + length recs <= length urls.
Proof.
  revert w. induction urls as [|url urls IH]; intros w.
  - exists [], []. rewrite !app_nil_r. destruct w. split; [reflexivity|simpl; lia].
  - rewrite batch_cons. unfold Py.bind.
    destruct (loop_body_appends requests_get BeautifulSoup repr url w)
      as (lines1 & recs1 & Hw1 & Hone).
    destruct (loop_body requests_get BeautifulSoup repr url w) as [[[]|e] w1];
      simpl in Hw1; subst w1.
    + destruct (IH (Py.mkWorld (Py.stdout w ++ lines1) (Py.records w ++ recs1)))
        as (lines2 & recs2 & Hw2 & Hrest).
      exists (lines1 ++ lines2), (recs1 ++ recs2). simpl in Hw2.
      rewrite Hw2, !app_assoc. split; [reflexivity|].
      rewrite !length_app. simpl. lia.
    + exists lines1, recs1. split; [reflexivity|simpl; lia].
Qed.

(* ===================================================================== *)
(** * More on contact extraction *)
(* ===================================================================== *)

(** The three values, read off the fold over the visited hrefs. *)
Lemma contact_fold_values hs :
  let info := fold_left contact_update hs contact_info_init in
  info !! "E-Mail" = Some (last_write is_mail (fun h => replace h "mailto:" "") hs)
  /\ info !! "Telefon" = Some (last_write is_tel (fun h => replace h "tel:" "") hs)
  /\ info !! "Homepage" = Some (last_write is_other (fun h => h) hs).
Proof.
  simpl. split; [|split].
  - rewrite (fold_last_write _ _ _ contact_update_mail).
    now destruct (last_write is_mail _ _).
  - rewrite (fold_last_write _ _ _ contact_update_tel).
    now destruct (last_write is_tel _ _).
  - rewrite (fold_last_write _ _ _ contact_update_homepage).
    now destruct (last_write is_other _ _).
Qed.

(** X6.  For every document - any number of contact containers, nested or
    not - the method returns without raising and each of the three keys
    ends with the last href of its category in the order the anchors are
    visited (container after container); a category without anchor stays
    at [None]. *)
Theorem contact_last_visit_wins (self : PoleStudioScraper) (w : Py.World) :
  exists info,
    extract_contact_info self w = (Py.Returned info, w)
    /\ info !! "E-Mail"
       = Some (last_write is_mail (fun h => replace h "mailto:" "")
                          (hrefs (visited_anchors self)))
    /\ info !! "Telefon"
       = Some (last_write is_tel (fun h => replace h "tel:" "")
                          (hrefs (visited_anchors self)))
    /\ info !! "Homepage"
       = Some (last_write is_other (fun h => h) (hrefs (visited_anchors self))).
Proof.
  eexists. split; [apply extract_contact_info_run|apply contact_fold_values].
Qed.

Lemma prefix_app old rest : String.prefix old (old +:+ rest) = true.
Proof.
  induction old as [|c old IH]; simpl.
  - now destruct rest.
  - destruct (ascii_dec c c) as [_|Hne]; [exact IH|now destruct Hne].
Qed.

Lemma replace_scan_skip old new a rest :
  replace_scan old new (a +:+ rest) (String.length a) = replace_scan old new rest 0.
Proof.
  induction a as [|c a IH]; simpl; [|exact IH].
  destruct rest; reflexivity.
Qed.

(** Replacing a leading occurrence, then going on behind it. *)
Lemma replace_leading old new rest :
  old <> EmptyString ->
  replace (old +:+ rest) old new = new +:+ replace rest old new.
Proof.
  destruct old as [|c old]; [congruence|]. intros _. unfold replace.
  change (String c old +:+ rest) with (String c (old +:+ rest)).
  cbn [replace_scan].
  change (String c (old +:+ rest)) with (String c old +:+ rest).
  rewrite prefix_app.
  replace (String.length (String c old) - 1) with (String.length old)
    by (simpl; lia).
  now rewrite replace_scan_skip.
Qed.

(** Where [old] does not occur there is nothing to replace. *)
Lemma replace_without_occurrence old new s :
  occurs old s = false -> replace s old new = s.
Proof.
  destruct old as [|c old].
  - intros H. exfalso. destruct s; simpl in H; discriminate.
  - unfold replace. induction s as [|c' s IH]; [reflexivity|].
    intros H. cbn [occurs] in H. apply orb_false_iff in H as [Hprefix Hocc].
    cbn [replace_scan]. rewrite Hprefix. now rewrite (IH Hocc).
Qed.

(** An href with the telephone prefix does not have the mail prefix. *)
Lemma is_tel_prefix h : is_tel h = startswith h "tel:".
Proof.
  unfold is_tel, startswith. destruct h as [|c h]; [reflexivity|].
  cbn [String.prefix]. destruct (ascii_dec "m" c) as [<-|_]; [|reflexivity].
  destruct (ascii_dec "t" "m") as [Heq|_]; [discriminate Heq|].
  apply andb_false_r.
Qed.

(** Taking occurrences out never lengthens a string, and shortens it when
    there is one. *)
Lemma replace_scan_length_le old s :
  forall skip,
    String.length (replace_scan old EmptyString s skip) <= String.length s.
Proof.
  induction s as [|c s IH]; intros skip; [simpl; lia|].
  cbn [replace_scan]. destruct skip as [|k].
  - destruct (String.prefix old (String c s)).
    + change (String.length (replace_scan old EmptyString s (String.length old - 1))
              <= String.length (String c s)).
      specialize (IH (String.length old - 1)). simpl String.length. lia.
    + specialize (IH 0). simpl String.length. lia.
  - specialize (IH k). simpl String.length. lia.
Qed.

Lemma replace_scan_length_lt old s :
  old <> EmptyString ->
  occurs old s = true ->
  String.length (replace_scan old EmptyString s 0) < String.length s.
Proof.
  intros Hold. induction s as [|c s IH]; intros Hocc.
  - destruct old; [congruence|discriminate Hocc].
  - cbn [occurs] in Hocc. cbn [replace_scan].
    destruct (String.prefix old (String c s)).
    + change (String.length (replace_scan old EmptyString s (String.length old - 1))
              < String.length (String c s)).
      pose proof (replace_scan_length_le old s (String.length old - 1)).
      simpl String.length. lia.
    + simpl in Hocc. specialize (IH Hocc). simpl String.length. lia.
Qed.

(** A string that taking [old] out leaves as it is holds no [old]. *)
Lemma replace_fixed_without_occurrence old s :
  old <> EmptyString -> replace s old EmptyString = s -> occurs old s = false.
Proof.
  intros Hold Hfixed. destruct (occurs old s) eqn:Hocc; [|reflexivity].
  pose proof (replace_scan_length_lt old s Hold Hocc) as Hlt.
  destruct old as [|c old]; [congruence|]. unfold replace in Hfixed.
  rewrite Hfixed in Hlt. lia.
Qed.

(** X7.  The value kept for a mail (telephone) anchor is its href with
    every occurrence of ["mailto:"] (["tel:"]) taken out, not only the
    leading one; it is the rest of the href exactly when the rest holds no
    further occurrence. *)
Theorem contact_scheme_removed (self : PoleStudioScraper) (w : Py.World)
        (scheme key rest : string) :
  (scheme = "mailto:" /\ key = "E-Mail") \/ (scheme = "tel:" /\ key = "Telefon") ->
  last (List.filter (fun h => startswith h scheme) (hrefs (visited_anchors self)))
  = Some (scheme +:+ rest) ->
  exists info,
    extract_contact_info self w = (Py.Returned info, w)
    /\ info !! key = Some (Some (replace rest scheme ""))
    /\ (info !! key = Some (Some rest) <-> occurs scheme rest = false).
Proof.
  intros Hscheme Hlast.
  destruct (contact_fold_values (hrefs (visited_anchors self))) as (Hmail & Htel & _).
  eexists. split; [apply extract_contact_info_run|].
  set (info := fold_left contact_update _ _) in *.
  assert (Hkey : info !! key = Some (Some (replace rest scheme ""))).
  { destruct Hscheme as [[-> ->]|[-> ->]].
    - rewrite Hmail. unfold last_write, is_mail. rewrite Hlast.
      cbn [fmap option_fmap option_map].
      now rewrite (replace_leading "mailto:" "" rest).
    - rewrite Htel. unfold last_write.
      replace (List.filter is_tel (hrefs (visited_anchors self)))
        with (List.filter (fun h => startswith h "tel:") (hrefs (visited_anchors self))).
      + rewrite Hlast. cbn [fmap option_fmap option_map].
        now rewrite (replace_leading "tel:" "" rest).
      + apply List.filter_ext. intros h. symmetry. apply is_tel_prefix. }
  split; [exact Hkey|]. rewrite Hkey. split.
  - intros Hsame. apply replace_fixed_without_occurrence.
    + destruct Hscheme as [[-> _]|[-> _]]; discriminate.
    + congruence.
  - intros Hocc. now rewrite (replace_without_occurrence _ _ _ Hocc).
Qed.

Lemma contact_scheme_removed_witness :
  exists info,
    extract_contact_info Cases.two_containers_page quiet = (Py.Returned info, quiet)
    /\ info !! "Telefon" = Some (Some "+49 30 1")
    /\ info !! "E-Mail" = Some (Some "second@x.com")
    /\ info !! "Homepage" = Some (Some "").
Proof.
  destruct (contact_scheme_removed Cases.two_containers_page quiet
              "tel:" "Telefon" "+49 30 1")
    as (info & Hrun & _ & Htel); [right; split; reflexivity|reflexivity|].
  exists info. split; [exact Hrun|]. split; [apply Htel; reflexivity|].
  rewrite extract_contact_info_run in Hrun. inversion Hrun; subst info.
  destruct (contact_fold_values (hrefs (visited_anchors Cases.two_containers_page)))
    as (Hmail & _ & Hhome).
  split; [rewrite Hmail|rewrite Hhome]; reflexivity.
Defined.

(* ===================================================================== *)
(** * More on the address and the rating *)
(* ===================================================================== *)

Lemma contains_app a b c : contains (a +:+ b) c = contains a c || contains b c.
Proof.
  induction a as [|c' a IH]; simpl; [reflexivity|]. now rewrite IH, orb_assoc.
Qed.

Lemma join_cons sep x l : l <> [] -> join sep (x :: l) = x +:+ sep +:+ join sep l.
Proof. destruct l; [congruence|reflexivity]. Qed.

(** Joining the parts with the separator gives the string back. *)
Lemma join_split s c : join (String c EmptyString) (split s c) = s.
Proof.
  induction s as [|c' s IH]; [reflexivity|]. cbn [split].
  pose proof (split_nonempty s c) as Hne.
  destruct (Ascii.eqb c' c) eqn:Hc.
  - apply Ascii.eqb_eq in Hc as ->.
    rewrite join_cons by exact Hne. now rewrite IH.
  - destruct (split s c) as [|p ps]; [congruence|].
    destruct ps as [|q ps]; [simpl in *; now rewrite IH|].
    rewrite join_cons by discriminate. rewrite join_cons in IH by discriminate.
    simpl. now rewrite <- IH.
Qed.

(** No part holds the separator. *)
Lemma split_parts_free s c : Forall (fun p => contains p c = false) (split s c).
Proof.
  induction s as [|c' s IH]; cbn [split].
  - now repeat constructor.
  - destruct (Ascii.eqb c' c) eqn:Hc.
    + now constructor.
    + destruct (split s c) as [|p ps]; [now repeat constructor; simpl; rewrite Hc|].
      inversion IH as [|? ? Hp Hps]; subst. constructor; [|exact Hps].
      simpl. now rewrite Hc, Hp.
Qed.

Lemma extract_address_unfold self e w :
  find (soup self) "p"
       [class_is "MuiTypography-root MuiTypography-body1 css-1619old"] = Some e ->
  extract_address self w
  = match nth_error (split (text e) ",") 1 with
    | Some s1 =>
        match split s1 " ", split (text e) "," with
        | _ :: t1 :: t2 :: _, s0 :: _ =>
            (Py.Returned (Some (split (text e) ","), Some t2, Some t1, Some s0), w)
        | _, _ => (Py.Raised index_error, w)
        end
    | None => (Py.Raised index_error, w)
    end.
Proof.
  intros He. unfold extract_address. rewrite He. cbn zeta.
  destruct (split (text e) ",") as [|s0 [|s1 segments]] eqn:Hsegments;
    [reflexivity|reflexivity|].
  unfold Py.bind, Py.getitem. cbn [nth_error Py.ret].
  destruct (split s1 " ") as [|t0 [|t1 [|t2 tokens]]]; reflexivity.
Qed.

(** X8.  With the address element present, [extract_address] returns
    exactly when the text has a second comma-separated segment and that
    segment has at least three space-separated tokens, and raises
    [IndexError] otherwise; the log is untouched either way. *)
Theorem extract_address_returns_iff (self : PoleStudioScraper) (e : PageElement)
        (w : Py.World) :
  find (soup self) "p"
       [class_is "MuiTypography-root MuiTypography-body1 css-1619old"] = Some e ->
  ((exists v, extract_address self w = (Py.Returned v, w))
   <-> exists s1, nth_error (split (text e) ",") 1 = Some s1
                  /\ 3 <= length (split s1 " "))
  /\ ((exists v, extract_address self w = (Py.Returned v, w))
      \/ extract_address self w = (Py.Raised index_error, w)).
Proof.
  intros He. rewrite (extract_address_unfold self e w He).
  destruct (nth_error (split (text e) ",") 1) as [s1|] eqn:Hs1.
  - destruct (split (text e) ",") as [|s0 segments] eqn:Hsegments;
      [discriminate Hs1|].
    destruct (split s1 " ") as [|t0 [|t1 [|t2 tokens]]] eqn:Htokens.
    1-3: split; [|now right]; split;
      [intros [v Hv]; discriminate Hv
      |intros (s & Hs & Hlen); inversion Hs; subst s; rewrite Htokens in Hlen;
       simpl in Hlen; lia].
    split; [|left; eauto]. split; [|eauto].
    intros _. exists s1. split; [reflexivity|]. rewrite Htokens. simpl. lia.
  - split; [|now right]. split.
    + intros [v Hv]. discriminate Hv.
    + intros (s & Hs & _). discriminate Hs.
Qed.

Lemma extract_address_returns_iff_witness :
  (exists v, extract_address (Samples.address_page "Hof 2, 20095 Hamburg, DE") quiet
             = (Py.Returned v, quiet))
  /\ extract_address (Samples.address_page "Hof 2, Hamburg") quiet
     = (Py.Raised index_error, quiet).
Proof.
  split.
  - destruct (extract_address_returns_iff
                (Samples.address_page "Hof 2, 20095 Hamburg, DE")
                (Samples.p_ ["css-1619old"] "Hof 2, 20095 Hamburg, DE") quiet)
      as [[_ Hreturns] _]; [reflexivity|].
    apply Hreturns. exists " 20095 Hamburg". split; [reflexivity|simpl; lia].
  - destruct (extract_address_returns_iff
                (Samples.address_page "Hof 2, Hamburg")
                (Samples.p_ ["css-1619old"] "Hof 2, Hamburg") quiet)
      as [_ [[v Hv]|Hraise]]; [reflexivity|discriminate Hv|exact Hraise].
Defined.

(** X9.  Whenever [extract_address] returns for a present element, the
    first component is the list of the comma-separated segments of the
    text: no segment holds a comma, joining them with commas gives the
    text back, and the last component is the first segment. *)
Theorem extract_address_segments (self : PoleStudioScraper) (e : PageElement)
        (w : Py.World) segments city postal street :
  find (soup self) "p"
       [class_is "MuiTypography-root MuiTypography-body1 css-1619old"] = Some e ->
  extract_address self w = (Py.Returned (segments, city, postal, street), w) ->
  exists segs,
    segments = Some segs
    /\ join "," segs = text e
    /\ Forall (fun segment => contains segment "," = false) segs
    /\ street = head segs
    /\ 2 <= length segs.
Proof.
  intros He Hrun. rewrite (extract_address_unfold self e w He) in Hrun.
  pose proof (join_split (text e) ",") as Hjoin.
  pose proof (split_parts_free (text e) ",") as Hfree.
  destruct (split (text e) ",") as [|s0 [|s1 rest]]; try discriminate Hrun.
  cbn [nth_error] in Hrun.
  destruct (split s1 " ") as [|t0 [|t1 [|t2 tokens]]]; try discriminate Hrun.
  inversion Hrun; subst. eexists. split; [reflexivity|].
  split; [exact Hjoin|]. split; [exact Hfree|]. split; [reflexivity|simpl; lia].
Qed.

Lemma extract_address_segments_witness :
  exists segs,
    join "," segs = "Hof 2, 20095 Hamburg, DE"
    /\ Forall (fun segment => contains segment "," = false) segs
    /\ Some "Hof 2" = head segs.
Proof.
  destruct (extract_address_segments
              (Samples.address_page "Hof 2, 20095 Hamburg, DE")
              (Samples.p_ ["css-1619old"] "Hof 2, 20095 Hamburg, DE") quiet
              (Some ["Hof 2"; " 20095 Hamburg"; " DE"])
              (Some "Hamburg") (Some "20095") (Some "Hof 2"))
    as (segs & _ & Hjoin & Hfree & Hstreet & _); [reflexivity|reflexivity|].
  exists segs. split; [exact Hjoin|]. split; [exact Hfree|exact Hstreet].
Defined.

(** X10.  For a text of the form ["<street>, <postal> <city>"] - a street
    without comma, a postal code and a city without comma or space -
    [extract_address] returns the two segments, the city, the postal code
    and the street, in this order. *)
Theorem extract_address_format (self : PoleStudioScraper) (e : PageElement)
        (w : Py.World) (street postal city : string) :
  find (soup self) "p"
       [class_is "MuiTypography-root MuiTypography-body1 css-1619old"] = Some e ->
  text e = street +:+ ", " +:+ postal +:+ " " +:+ city ->
  contains street "," = false ->
  contains postal "," = false -> contains postal " " = false ->
  contains city "," = false -> contains city " " = false ->
  extract_address self w
  = (Py.Returned (Some [street; " " +:+ postal +:+ " " +:+ city],
                  Some city, Some postal, Some street), w).
Proof.
  intros He Htext Hstreet Hpostal Hpostal' Hcity Hcity'.
  apply (extract_address_positions self e street (" " +:+ postal +:+ " " +:+ city)
           [] "" postal city [] He).
  - rewrite Htext.
    change (street +:+ ", " +:+ postal +:+ " " +:+ city)
      with (street +:+ String "," (" " +:+ postal +:+ " " +:+ city)).
    rewrite (split_at_first_separator _ _ _ Hstreet).
    rewrite split_without_separator; [reflexivity|].
    change (" " +:+ postal +:+ " " +:+ city)
      with (String " " (postal +:+ String " " city)).
    simpl. rewrite contains_app. simpl. now rewrite Hpostal, Hcity.
  - change (" " +:+ postal +:+ " " +:+ city)
      with (EmptyString +:+ String " " (postal +:+ String " " city)).
    rewrite (split_at_first_separator "" _ " " eq_refl).
    rewrite (split_at_first_separator _ _ _ Hpostal').
    now rewrite (split_without_separator _ _ Hcity').
Qed.

Lemma extract_address_format_witness :
  extract_address (Samples.address_page "Hof 2, 20095 Hamburg") quiet
  = (Py.Returned (Some ["Hof 2"; " 20095 Hamburg"],
                  Some "Hamburg", Some "20095", Some "Hof 2"), quiet).
Proof.
  apply (extract_address_format (Samples.address_page "Hof 2, 20095 Hamburg")
           (Samples.p_ ["css-1619old"] "Hof 2, 20095 Hamburg") quiet
           "Hof 2" "20095" "Hamburg"); reflexivity.
Defined.

Lemma append_empty_r s : s +:+ EmptyString = s.
Proof.
  induction s as [|c s IH]; [reflexivity|].
  change (String c s +:+ EmptyString) with (String c (s +:+ EmptyString)).
  now rewrite IH.
Qed.

Lemma append_assoc a b c : (a +:+ b) +:+ c = a +:+ (b +:+ c).
Proof.
  induction a as [|x a IH]; [reflexivity|].
  change ((String x a +:+ b) +:+ c) with (String x ((a +:+ b) +:+ c)).
  now rewrite IH.
Qed.

(** Replacing a single character works character by character. *)
Lemma replace_char_step c new c' s :
  replace (String c' s) (String c EmptyString) new
  = (if Ascii.eqb c c' then new else String c' EmptyString)
    +:+ replace s (String c EmptyString) new.
Proof.
  unfold replace. cbn [replace_scan String.prefix String.length].
  destruct (ascii_dec c c') as [<-|Hne].
  - rewrite Ascii.eqb_refl. now destruct s.
  - apply Ascii.eqb_neq in Hne. now rewrite Hne.
Qed.

Lemma replace_char_app c new a b :
  replace (a +:+ b) (String c EmptyString) new
  = replace a (String c EmptyString) new +:+ replace b (String c EmptyString) new.
Proof.
  induction a as [|c' a IH]; [reflexivity|].
  change (String c' a +:+ b) with (String c' (a +:+ b)).
  rewrite !replace_char_step, IH.
  destruct (Ascii.eqb c c'); [|reflexivity].
  now rewrite append_assoc.
Qed.

Lemma replace_char_absent c new s :
  contains s c = false -> replace s (String c EmptyString) new = s.
Proof.
  induction s as [|c' s IH]; [reflexivity|]. simpl contains. intros H.
  apply orb_false_iff in H as [Hc Hs]. rewrite replace_char_step, (IH Hs).
  rewrite Ascii.eqb_sym, Hc. reflexivity.
Qed.

(** Taking a character out leaves none of it, and brings in no other. *)
Lemma replace_char_removed c s :
  contains (replace s (String c EmptyString) EmptyString) c = false.
Proof.
  induction s as [|c' s IH]; [reflexivity|]. rewrite replace_char_step.
  destruct (Ascii.eqb c c') eqn:Hc; [exact IH|].
  rewrite contains_app, IH. cbn [contains]. now rewrite Ascii.eqb_sym, Hc.
Qed.

Lemma replace_char_keeps_free c d s :
  contains s d = false ->
  contains (replace s (String c EmptyString) EmptyString) d = false.
Proof.
  induction s as [|c' s IH]; [reflexivity|]. intros H. cbn [contains] in H.
  apply orb_false_iff in H as [Hd Hs]. rewrite replace_char_step.
  destruct (Ascii.eqb c c'); [now apply IH|].
  rewrite contains_app, (IH Hs). cbn [contains]. now rewrite Hd.
Qed.

Lemma lstrip_keeps_free s d : contains s d = false -> contains (lstrip s) d = false.
Proof.
  induction s as [|c s IH]; [reflexivity|]. intros H. cbn [lstrip].
  destruct (isspace c); [|exact H].
  simpl in H. apply orb_false_iff in H as [_ Hs]. now apply IH.
Qed.

Lemma rstrip_keeps_free s d : contains s d = false -> contains (rstrip s) d = false.
Proof.
  induction s as [|c s IH]; [reflexivity|]. simpl contains. intros H.
  apply orb_false_iff in H as [Hc Hs]. specialize (IH Hs). cbn [rstrip].
  destruct (rstrip s) as [|a r].
  - destruct (isspace c); [reflexivity|]. simpl. now rewrite Hc.
  - cbn [contains]. cbn [contains] in IH. now rewrite Hc.
Qed.

Lemma rstrip_cons c s :
  rstrip (String c s)
  = match rstrip s with
    | EmptyString => if isspace c then EmptyString else String c EmptyString
    | r => String c r
    end.
Proof. reflexivity. Qed.

Lemma rstrip_idempotent s : rstrip (rstrip s) = rstrip s.
Proof.
  induction s as [|c s IH]; [reflexivity|]. rewrite rstrip_cons.
  destruct (rstrip s) as [|a r] eqn:Hr.
  - destruct (isspace c) eqn:Hc; [reflexivity|]. rewrite rstrip_cons. simpl.
    now rewrite Hc.
  - rewrite rstrip_cons. now rewrite IH.
Qed.

Lemma lstrip_head s :
  lstrip s = EmptyString \/ exists c t, lstrip s = String c t /\ isspace c = false.
Proof.
  induction s as [|c s IH]; [now left|]. cbn [lstrip].
  destruct (isspace c) eqn:Hc; [exact IH|]. right. eauto.
Qed.

Lemma rstrip_head c t :
  isspace c = false -> exists t', rstrip (String c t) = String c t'.
Proof.
  intros Hc. cbn [rstrip]. destruct (rstrip t); [|eauto]. rewrite Hc. eauto.
Qed.

(** What [strip] returns has no white space at either end. *)
Lemma strip_stripped s : stripped (strip s).
Proof.
  unfold stripped, strip. split; [|apply rstrip_idempotent].
  destruct (lstrip_head s) as [->|(c & t & -> & Hc)]; [reflexivity|].
  destruct (rstrip_head c t Hc) as [t' ->]. simpl. now rewrite Hc.
Qed.

Lemma strip_keeps_free s d : contains s d = false -> contains (strip s) d = false.
Proof. intros H. now apply rstrip_keeps_free, lstrip_keeps_free. Qed.

(** X11.  For a text of the form ["<score>(<count>)"], with no parenthesis
    inside the score or the count, [extract_rating] returns the score and
    the count, each without its surrounding white space. *)
Theorem extract_rating_format (self : PoleStudioScraper) (e : PageElement)
        (w : Py.World) (score count : string) :
  find (soup self) "p"
       [class_is "MuiTypography-root MuiTypography-body1 css-2g7rhg"] = Some e ->
  text e = score +:+ "(" +:+ count +:+ ")" ->
  contains score "(" = false ->
  contains count "(" = false -> contains count ")" = false ->
  extract_rating self w = (Py.Returned (Some (strip score), Some (strip count)), w).
Proof.
  intros He Htext Hscore Hcount Hcount'.
  assert (Hrest : contains (count +:+ ")") "(" = false)
    by (rewrite contains_app, Hcount; reflexivity).
  rewrite (extract_rating_parts self e score (count +:+ ")") [] He).
  - rewrite replace_char_app, (replace_char_absent _ _ _ Hcount').
    change (replace ")" ")" "") with EmptyString. now rewrite append_empty_r.
  - rewrite Htext.
    change (score +:+ "(" +:+ count +:+ ")") with (score +:+ String "(" (count +:+ ")")).
    rewrite (split_at_first_separator _ _ _ Hscore).
    now rewrite (split_without_separator _ _ Hrest).
Qed.

Lemma extract_rating_format_witness :
  extract_rating (Samples.rating_page "  4.95   ( 1 024 Bewertungen )") quiet
  = (Py.Returned (Some "4.95", Some "1 024 Bewertungen"), quiet).
Proof.
  apply (extract_rating_format
           (Samples.rating_page "  4.95   ( 1 024 Bewertungen )")
           (Samples.p_ ["css-2g7rhg"] "  4.95   ( 1 024 Bewertungen )") quiet
           "  4.95   " " 1 024 Bewertungen "); reflexivity.
Defined.

(** X12.  Whatever the page, a score and a count that [extract_rating]
    returns have no white space at either end and no ["("] in them, and
    the count has no [")"] either. *)
Theorem extract_rating_values_clean (self : PoleStudioScraper) (w : Py.World)
        (score count : string) :
  extract_rating self w = (Py.Returned (Some score, Some count), w) ->
  stripped score /\ stripped count
  /\ contains score "(" = false
  /\ contains count "(" = false
  /\ contains count ")" = false.
Proof.
  unfold extract_rating.
  destruct (find (soup self) "p" _) as [e|]; [|discriminate].
  cbn zeta. pose proof (split_parts_free (text e) "(") as Hfree.
  destruct (split (text e) "(") as [|p0 [|p1 rest]]; try discriminate.
  unfold Py.bind, Py.getitem. cbn [nth_error Py.ret].
  intros Hrun. inversion Hrun; subst score count.
  inversion Hfree as [|? ? Hp0 Hrest]; subst.
  inversion Hrest as [|? ? Hp1 _]; subst.
  split; [apply strip_stripped|]. split; [apply strip_stripped|].
  split; [now apply strip_keeps_free|].
  split; apply strip_keeps_free;
    [now apply replace_char_keeps_free|apply replace_char_removed].
Qed.

Lemma extract_rating_values_clean_witness :
  stripped "4.8" /\ stripped "12"
  /\ contains "4.8" "(" = false /\ contains "12" "(" = false
  /\ contains "12" ")" = false.
Proof.
  apply (extract_rating_values_clean (Samples.rating_page " 4.8 ( 12) (3))") quiet
           "4.8" "12").
  reflexivity.
Defined.

(* ===================================================================== *)
(** * More on the scalar fields, the error manager and the tree *)
(* ===================================================================== *)

(** X13.  The three scalar methods never raise and never touch the log:
    each returns the text of the first element in document order that
    matches its selector, later matches being ignored, or [None]. *)
Theorem scalar_first_match (self : PoleStudioScraper) (w : Py.World) :
  extract_pole_studio_name self w
  = (Py.Returned
       (text <$> head (find_all (soup self) "h1"
                         [class_is "MuiTypography-root MuiTypography-h1 css-qinhw0"])),
     w)
  /\ extract_description self w
     = (Py.Returned
          (text <$> head (find_all (soup self) "div" [class_is "MuiBox-root css-0"])),
        w)
  /\ extract_sale self w
     = (Py.Returned
          (text <$> head (find_all (soup self) "p"
                            [class_is "MuiTypography-root MuiTypography-body1 css-153qxhx"])),
        w).
Proof.
  unfold extract_pole_studio_name, extract_description, extract_sale, find.
  repeat split.
  - now destruct (head (find_all (soup self) "h1" _)).
  - now destruct (head (find_all (soup self) "div" _)).
  - now destruct (head (find_all (soup self) "p" _)).
Qed.

Lemma report_run logger_name r w :
  report (ScraperErrorManager_init logger_name) r w
  = (Py.Returned tt,
     Py.mkWorld (Py.stdout w)
       (Py.records w
        ++ [report_record
              (if String.eqb logger_name EmptyString then "root" else logger_name) r])).
Proof. destruct r; reflexivity. Qed.

(** X14.  On a manager made by [ScraperErrorManager.__init__], a sequence of
    calls of [handle_url_error] and [handle_element_error] never raises and
    never prints; it appends to the log one record per call, in the order
    of the calls - an [ERROR] for a URL error, a [WARNING] for an element
    error - and keeps the records that were there.  The records carry the
    name given to the manager, or ["root"] when that name is empty. *)
Theorem error_manager_reports (logger_name : string) (reports : list Report)
        (w : Py.World) :
  let name := if String.eqb logger_name EmptyString then "root" else logger_name in
  Py.for_ reports (fun r _ => report (ScraperErrorManager_init logger_name) r) tt w
  = (Py.Returned tt,
     Py.mkWorld (Py.stdout w) (Py.records w ++ map (report_record name) reports))
  /\ Forall (fun r : Report =>
               Py.levelno (report_record name r)
               = match r with UrlError _ _ => 40 | ElementError _ _ => 30 end
               /\ Py.name (report_record name r) = name)
            reports.
Proof.
  intros name. split.
  - revert w. induction reports as [|r reports IH]; intros w.
    + destruct w. simpl. now rewrite app_nil_r.
    + cbn [Py.for_]. unfold Py.bind. rewrite report_run, IH. simpl.
      now rewrite <- app_assoc.
  - apply List.Forall_forall. intros [url e|element_name e] _; split; reflexivity.
Qed.

(** Structural induction on a page, with the children of a tag covered. *)
Lemma PageElement_induction (P : PageElement -> Prop) :
  (forall s, P (NavigableString s)) ->
  (forall n c a cs, Forall P cs -> P (Tag n c a cs)) ->
  forall e, P e.
Proof.
  intros Hstring Htag. fix IH 1. intros [n c a cs|s]; [|apply Hstring].
  apply Htag. induction cs as [|ch cs IHcs]; constructor; [apply IH|exact IHcs].
Qed.

Lemma in_descendants n c a cs d :
  In d (descendants (Tag n c a cs))
  <-> exists ch, In ch cs /\ (d = ch \/ In d (descendants ch)).
Proof.
  cbn [descendants].
  induction cs as [|ch cs IH].
  - split; [intros []|intros (ch & [] & _)].
  - split.
    + intros [<-|Hd]; [exists ch; split; [now left|now left]|].
      apply in_app_or in Hd as [Hd|Hd].
      * exists ch. split; [now left|now right].
      * apply IH in Hd as (ch' & Hch' & Hd). exists ch'. split; [now right|exact Hd].
    + intros (ch' & [<-|Hch'] & Hd).
      * destruct Hd as [->|Hd]; [now left|]. right. apply in_or_app. now left.
      * right. apply in_or_app. right. apply IH. eauto.
Qed.

(** What is below a descendant is below the element. *)
Lemma descendants_transitive e :
  forall d x, In d (descendants e) -> In x (descendants d) -> In x (descendants e).
Proof.
  induction e as [s|n c a cs IH] using PageElement_induction; intros d x Hd Hx.
  - destruct Hd.
  - apply in_descendants in Hd as (ch & Hch & Hd). apply in_descendants.
    exists ch. split; [exact Hch|]. right.
    destruct Hd as [->|Hd]; [exact Hx|].
    rewrite List.Forall_forall in IH. exact (IH ch Hch d x Hd Hx).
Qed.

Lemma find_all_below e d name filters x :
  In d (descendants e) -> In x (find_all d name filters) ->
  In x (find_all e name filters).
Proof.
  unfold find_all. intros Hd Hx. apply List.filter_In in Hx as [Hx Hm].
  apply List.filter_In. split; [|exact Hm]. now apply (descendants_transitive e d).
Qed.

Lemma find_all_descendant e name filters x :
  In x (find_all e name filters) -> In x (descendants e).
Proof. unfold find_all. intros Hx. now apply List.filter_In in Hx as [Hx _]. Qed.

(** The value a category ends with comes from an href of the category. *)
Lemma last_write_source category render hs v :
  last_write category render hs = Some v ->
  exists h, In h hs /\ category h = true /\ v = render h.
Proof.
  unfold last_write. destruct (last (List.filter category hs)) as [h|] eqn:Hlast;
    [|discriminate].
  intros Hv. inversion Hv; subst v. exists h.
  apply last_Some_elem_of, list_elem_of_In, List.filter_In in Hlast as [Hin Hcat].
  auto.
Qed.

(** An href that is visited is the [href] of an [a] element of the page. *)
Lemma visited_href_source self h :
  In h (hrefs (visited_anchors self)) ->
  exists a, In a (find_all (soup self) "a" [attr_True "href"])
            /\ get a "href" = Some h.
Proof.
  unfold hrefs. intros Hh.
  apply list_elem_of_In, list_elem_of_omap in Hh as (a & Ha & Hget).
  apply list_elem_of_In in Ha. exists a. split; [|exact Hget].
  unfold visited_anchors in Ha. apply in_flat_map in Ha as (div & Hdiv & Ha).
  eapply find_all_below; [|exact Ha]. eapply find_all_descendant, Hdiv.
Qed.

Lemma contact_info_init_other_key k :
  k <> "E-Mail" -> k <> "Telefon" -> k <> "Homepage" -> contact_info_init !! k = None.
Proof.
  intros H1 H2 H3. unfold contact_info_init. now rewrite !lookup_insert_ne.
Qed.

(** X15.  Nothing is made up.  Every overview button that is returned is
    the text of an [a] element of the page.  Every string in the dictionary
    that contact extraction returns comes from the [href] of an [a] element
    of the page: under ["E-Mail"] an href that starts with ["mailto:"], with
    ["mailto:"] taken out; under ["Telefon"] one that starts with ["tel:"],
    with ["tel:"] taken out; under ["Homepage"] one that starts with
    neither, as it is. *)
Theorem extracted_from_the_page (self : PoleStudioScraper) (w : Py.World) :
  (exists buttons,
      extract_overview_buttons self w = (Py.Returned buttons, w)
      /\ forall t, In t buttons ->
                   exists a, In a (find_all (soup self) "a" []) /\ text a = t)
  /\ (exists info,
         extract_contact_info self w = (Py.Returned info, w)
         /\ forall key value,
             info !! key = Some (Some value) ->
             exists a h,
               In a (find_all (soup self) "a" [attr_True "href"])
               /\ get a "href" = Some h
               /\ ((key = "E-Mail" /\ startswith h "mailto:" = true
                    /\ value = replace h "mailto:" "")
                   \/ (key = "Telefon" /\ startswith h "tel:" = true
                       /\ value = replace h "tel:" "")
                   \/ (key = "Homepage" /\ startswith h "mailto:" = false
                       /\ startswith h "tel:" = false /\ value = h))).
Proof.
  split.
  - eexists. split; [reflexivity|]. intros t Ht.
    apply in_flat_map in Ht as (div & Hdiv & Ht).
    apply in_map_iff in Ht as (a & <- & Ha).
    exists a. split; [|reflexivity].
    eapply find_all_below; [|exact Ha]. eapply find_all_descendant, Hdiv.
  - eexists. split; [apply extract_contact_info_run|].
    destruct (contact_fold_values (hrefs (visited_anchors self)))
      as (Hmail & Htel & Hhome).
    intros key value Hvalue.
    destruct (decide (key = "E-Mail")) as [->|Hnmail].
    { rewrite Hmail in Hvalue. inversion Hvalue as [Hlast].
      apply last_write_source in Hlast as (h & Hin & Hcat & ->).
      destruct (visited_href_source self h Hin) as (a & Ha & Hget).
      exists a, h. split; [exact Ha|]. split; [exact Hget|]. left. auto. }
    destruct (decide (key = "Telefon")) as [->|Hntel].
    { rewrite Htel in Hvalue. inversion Hvalue as [Hlast].
      apply last_write_source in Hlast as (h & Hin & Hcat & ->).
      destruct (visited_href_source self h Hin) as (a & Ha & Hget).
      exists a, h. split; [exact Ha|]. split; [exact Hget|]. right. left.
      rewrite is_tel_prefix in Hcat. auto. }
    destruct (decide (key = "Homepage")) as [->|Hnhome].
    { rewrite Hhome in Hvalue. inversion Hvalue as [Hlast].
      apply last_write_source in Hlast as (h & Hin & Hcat & ->).
      destruct (visited_href_source self h Hin) as (a & Ha & Hget).
      exists a, h. split; [exact Ha|]. split; [exact Hget|]. right. right.
      unfold is_other in Hcat. apply andb_true_iff in Hcat as [Hm Ht].
      apply negb_true_iff in Hm, Ht. auto. }
    rewrite contact_fold_other_key, contact_info_init_other_key in Hvalue
      by assumption.
    discriminate Hvalue.
Qed.

Lemma extracted_from_the_page_witness :
  (exists a,
      In a (find_all (soup Cases.buttons_page) "a" []) /\ text a = "Team")
  /\ exists a h,
      In a (find_all (soup Cases.two_containers_page) "a" [attr_True "href"])
      /\ get a "href" = Some h
      /\ startswith h "mailto:" = true
      /\ "second@x.com" = replace h "mailto:" "".
Proof.
  split.
  - destruct (extracted_from_the_page Cases.buttons_page quiet)
      as [(buttons & Hrun & Hfrom) _].
    apply Hfrom. inversion Hrun. simpl. tauto.
  - destruct (extracted_from_the_page Cases.two_containers_page quiet)
      as [_ (info & Hrun & Hfrom)].
    destruct (Hfrom "E-Mail" "second@x.com")
      as (a & h & Ha & Hget & [(_ & Hm & Hv)|[(Hk & _)|(Hk & _)]]).
    + rewrite extract_contact_info_run in Hrun. inversion Hrun.
      rewrite (fold_last_write _ _ _ contact_update_mail). reflexivity.
    + exists a, h. auto.
    + discriminate Hk.
    + discriminate Hk.
Defined.
